(** * airbnb_ws.py: repeated web requests with proxy rotation

    A shallow embedding of [ws_individual_request] and
    [ws_request_with_repeats] from [airbnb_ws.py], and the properties of the
    retry loop, of the proxy list and of the exception handlers.

    Modelling choices.
    - Python floats are IEEE binary64 numbers: they are Rocq's primitive
      floats, and [+] and [*] on them are the operations Python performs.
    - The [config] object is mutated in place by the code; here it is one
      component of the [world] that every function threads through.
    - What the program takes from outside (the [random] module and the web
      site) is supplied per attempt by an [attempt_env]; every theorem
      quantifies over it.
    - The [effects] of the [world] are the trace of a session, most recent
      first: every entry into [ws_individual_request], every sleep that
      [time.sleep] performed and every call of [requests.get].
    - [time.sleep] refuses some lengths (negative, not a number, too large)
      with an exception; both calls are inside the [try] of line 48.
    - Logging does not influence control flow and is left out. *)

From Stdlib Require Import ZArith List String Bool Lia.
From Stdlib Require Import Floats.PrimFloat.
Import ListNotations.

Local Open Scope string_scope.
Local Open Scope Z_scope.

(** ** Python values *)

Module Py.

(** The exception classes the two functions can meet.  An exception is
    represented by its class; [UserDefined] stands for every other class
    derived from [Exception]. *)
Inductive pyclass : Type :=
| SystemExit | KeyboardInterrupt
| Exception
| AttributeError | ValueError | IndexError | OverflowError
| RequestException | ConnectionError | HTTPError | Timeout | TooManyRedirects
| UserDefined (name : string).

Definition class_eqb (c d : pyclass) : bool :=
  match c, d with
  | SystemExit, SystemExit | KeyboardInterrupt, KeyboardInterrupt
  | Exception, Exception
  | AttributeError, AttributeError | ValueError, ValueError
  | IndexError, IndexError | OverflowError, OverflowError
  | RequestException, RequestException | ConnectionError, ConnectionError
  | HTTPError, HTTPError | Timeout, Timeout
  | TooManyRedirects, TooManyRedirects => true
  | UserDefined a, UserDefined b => String.eqb a b
  | _, _ => false
  end.

(** [SystemExit] and [KeyboardInterrupt] derive from [BaseException] only;
    the four named [requests] exceptions derive from [RequestException];
    everything else derives from [Exception] directly. *)
Definition issubclass (c d : pyclass) : bool :=
  match d with
  | Exception =>
      match c with
      | SystemExit | KeyboardInterrupt => false
      | _ => true
      end
  | RequestException =>
      match c with
      | RequestException | ConnectionError | HTTPError | Timeout
      | TooManyRedirects => true
      | _ => false
      end
  | _ => class_eqb c d
  end.

(** [len(l)] as a Python integer. *)
Definition len {A : Type} (l : list A) : Z := Z.of_nat (List.length l).

(** [range(n)]: empty when [n <= 0]. *)
Definition range (n : Z) : list Z := List.map Z.of_nat (List.seq 0 (Z.to_nat n)).

(** [l.remove(x)]: drops the first occurrence of [x]; [None] stands for the
    [ValueError] raised when there is none. *)
Fixpoint list_remove (x : string) (l : list string) : option (list string) :=
  match l with
  | [] => None
  | y :: t =>
      if String.eqb y x then Some t
      else option_map (cons y) (list_remove x t)
  end.

(** Truth value of a string: only the empty string is false.  ([None], the
    other value [http_proxy] can have, is false too.) *)
Definition truthy (s : string) : bool := negb (String.eqb s "").

End Py.
Import Py.

(** ** The data of the program *)

(** The attributes of [config] that [airbnb_ws.py] reads or writes. *)
Record config : Type := mkConfig {
  MAX_CONNECTION_ATTEMPTS : Z;
  REQUEST_SLEEP : float;
  HTTP_TIMEOUT : float;
  USER_AGENT_LIST : list string;
  HTTP_PROXY_LIST : list string;
  HTTP_PROXY_LIST_COMPLETE : list string;
  RE_INIT_SLEEP_TIME : float
}.

(** A [requests.Response], as far as the code looks at it. *)
Record response : Type := mkResponse {
  status_code : Z;
  text : string
}.

(** [requests.codes.ok] *)
Definition requests_codes_ok : Z := 200.

Definition dict : Type := list (string * string).

(** The arguments of one call of [requests.get]. *)
Record request : Type := mkRequest {
  req_url : string;
  req_params : option dict;
  req_timeout : float;
  req_headers : dict;
  req_cookies : dict;
  req_proxies : option dict
}.

(** What [requests.get] does: it returns a response or raises. *)
Inductive get_result : Type :=
| Responds (r : response)
| Fails (e : pyclass).

(** The outside world during one attempt: the draws of the [random] module
    and the behaviour of the network. *)
Record attempt_env : Type := mkEnv {
  random_random : float;          (* random.random() *)
  user_agent_draw : nat;          (* index drawn by random.choice(USER_AGENT_LIST) *)
  proxy_draw : nat;               (* index drawn by random.choice(HTTP_PROXY_LIST) *)
  remove_draw : bool;             (* random.choice([True, False]) *)
  network : request -> get_result (* requests.get *)
}.

Inductive event : Type :=
| Attempt (attempt_id : Z)   (* ws_individual_request was entered *)
| Sleep (seconds : float)    (* time.sleep slept that long *)
| Get (r : request).         (* requests.get was called *)

Record world : Type := mkWorld {
  cfg : config;
  effects : list event
}.

(** ** Exceptions and state: the monad of the embedding *)

Inductive outcome (A : Type) : Type :=
| Returns (a : A)
| Raises (e : pyclass).
Arguments Returns {A} a.
Arguments Raises {A} e.

Definition M (A : Type) : Type := world -> outcome A * world.

Definition ret {A : Type} (a : A) : M A := fun w => (Returns a, w).

Definition raise {A : Type} (e : pyclass) : M A := fun w => (Raises e, w).

Definition bind {A B : Type} (m : M A) (k : A -> M B) : M B :=
  fun w =>
    match m w with
    | (Returns a, w') => k a w'
    | (Raises e, w') => (Raises e, w')
    end.

(** [try: body except ...: handler] *)
Definition try_except {A : Type} (body : M A) (handler : pyclass -> M A) : M A :=
  fun w =>
    match body w with
    | (Returns a, w') => (Returns a, w')
    | (Raises e, w') => handler e w'
    end.

Declare Scope py_scope.
Delimit Scope py_scope with py.
Notation "x <- m ;; k" := (bind m (fun x => k))
  (at level 61, m at next level, right associativity) : py_scope.
Notation "m ;; k" := (bind m (fun _ => k))
  (at level 61, right associativity) : py_scope.
Local Open Scope py_scope.

Definition read_config : M config := fun w => (Returns (cfg w), w).

Definition write_config (f : config -> config) : M unit :=
  fun w => (Returns tt, mkWorld (f (cfg w)) (effects w)).

Definition emit (ev : event) : M unit :=
  fun w => (Returns tt, mkWorld (cfg w) (ev :: effects w)).

(** The exception with which [time.sleep(seconds)] refuses a length, as
    CPython 3 does: the length is converted to a whole number of nanoseconds
    in a signed 64-bit integer ([ValueError] for a NaN, [OverflowError] when
    it does not fit), and a negative length is a [ValueError].  [-0.0] is
    accepted. *)
Definition sleep_error (seconds : float) : option pyclass :=
  if is_nan seconds then Some ValueError
  else
    let nanoseconds := (seconds * 1e9)%float in
    if negb ((- 0x1p63 <=? nanoseconds)%float && (nanoseconds <? 0x1p63)%float)
    then Some OverflowError
    else if (seconds <? 0)%float then Some ValueError
    else None.

(** [time.sleep(seconds)] *)
Definition time_sleep (seconds : float) : M unit :=
  match sleep_error seconds with
  | Some e => raise e
  | None => emit (Sleep seconds)
  end.

(** [random.choice(l)]: an element of [l], [IndexError] on the empty list. *)
Definition random_choice (draw : nat) (l : list string) : M string :=
  match l with
  | [] => raise IndexError
  | _ :: _ => ret (List.nth (Nat.modulo draw (List.length l)) l "")
  end.

(** [requests.get(...)]: the call is recorded, then the network answers. *)
Definition requests_get (env : attempt_env) (rq : request) : M response :=
  emit (Get rq) ;;
  match network env rq with
  | Responds r => ret r
  | Fails e => raise e
  end.

Definition set_HTTP_PROXY_LIST (l : list string) (c : config) : config :=
  mkConfig (MAX_CONNECTION_ATTEMPTS c) (REQUEST_SLEEP c) (HTTP_TIMEOUT c)
           (USER_AGENT_LIST c) l (HTTP_PROXY_LIST_COMPLETE c)
           (RE_INIT_SLEEP_TIME c).

Definition set_REQUEST_SLEEP (s : float) (c : config) : config :=
  mkConfig (MAX_CONNECTION_ATTEMPTS c) s (HTTP_TIMEOUT c)
           (USER_AGENT_LIST c) (HTTP_PROXY_LIST c) (HTTP_PROXY_LIST_COMPLETE c)
           (RE_INIT_SLEEP_TIME c).

(** [config.HTTP_PROXY_LIST.remove(http_proxy)] *)
Definition HTTP_PROXY_LIST_remove (http_proxy : string) : M unit :=
  config <- read_config ;;
  match list_remove http_proxy (HTTP_PROXY_LIST config) with
  | Some l => write_config (set_HTTP_PROXY_LIST l)
  | None => raise ValueError
  end.

(** [config.REQUEST_SLEEP += 1.0] *)
Definition REQUEST_SLEEP_add_one : M unit :=
  write_config (fun c => set_REQUEST_SLEEP (REQUEST_SLEEP c + 1)%float c).

(** ** ws_individual_request *)

(** The [proxies] argument for a request through [http_proxy], lines 68 to 71. *)
Definition proxies_through (http_proxy : string) : dict :=
  [("http", ("http://" ++ http_proxy)%string);
   ("https", ("https://" ++ http_proxy)%string)].

(** Status 300 or more after a request through [http_proxy], lines 86 to 111. *)
Definition blocked_through_proxy (env : attempt_env) (http_proxy : string) : M unit :=
  config <- read_config ;;
  (if 0 <? len (HTTP_PROXY_LIST config) then
     if remove_draw env then HTTP_PROXY_LIST_remove http_proxy
     else ret tt
   else ret tt) ;;
  config <- read_config ;;
  if len (HTTP_PROXY_LIST config) =? 0 then
    write_config (set_HTTP_PROXY_LIST (HTTP_PROXY_LIST_COMPLETE config)) ;;
    time_sleep (RE_INIT_SLEEP_TIME config) ;;
    REQUEST_SLEEP_add_one
  else ret tt.

(** Status 300 or more after a direct request, lines 113 to 117. *)
Definition blocked_directly : M unit :=
  config <- read_config ;;
  time_sleep (RE_INIT_SLEEP_TIME config) ;;
  REQUEST_SLEEP_add_one.

(** The body of the [try] block, lines 49 to 118. *)
Definition individual_request_body (env : attempt_env) (url : string)
    (params : option dict) : M (option response) :=
  config <- read_config ;;
  let sleep_time := (REQUEST_SLEEP config * random_random env)%float in
  time_sleep sleep_time ;;
  let timeout := HTTP_TIMEOUT config in
  headers <-
    (if 0 <? len (USER_AGENT_LIST config) then
       user_agent <- random_choice (user_agent_draw env) (USER_AGENT_LIST config) ;;
       ret [("User-Agent", user_agent)]
     else ret [("User-Agent", "Mozilla/5.0")]) ;;
  http_proxy <-
    (if 0 <? len (HTTP_PROXY_LIST config) then
       p <- random_choice (proxy_draw env) (HTTP_PROXY_LIST config) ;;
       ret (Some p)
     else ret None) ;;
  let proxies := option_map proxies_through http_proxy in
  let cookies := [("sticky_locale", "en")] in
  response <- requests_get env (mkRequest url params timeout headers cookies proxies) ;;
  if status_code response <? 300 then ret (Some response)
  else
    match http_proxy with
    | Some p => if truthy p then blocked_through_proxy env p else blocked_directly
    | None => blocked_directly
    end ;;
    ret (Some response).

(** The [except] clauses, lines 119 to 146, tried in order. *)
Definition individual_request_handlers (e : pyclass) : M (option response) :=
  if issubclass e SystemExit || issubclass e KeyboardInterrupt then raise e
  else if issubclass e ConnectionError then ret None
  else if issubclass e HTTPError then ret None
  else if issubclass e Timeout then ret None
  else if issubclass e TooManyRedirects then ret None
  else if issubclass e RequestException then ret None
  else if issubclass e Exception then ret None
  else raise e.

Definition ws_individual_request (env : attempt_env) (url : string)
    (attempt_id : Z) (params : option dict) : M (option response) :=
  emit (Attempt attempt_id) ;;
  try_except (individual_request_body env url params)
             individual_request_handlers.

(** ** ws_request_with_repeats *)

(** How one turn of the [for] loop ends. *)
Inductive loop_exit : Type :=
| LoopReturn (r : response)
| LoopNext.

(** One turn of the loop, lines 27 to 39. *)
Definition repeats_turn (env : Z -> attempt_env) (url : string)
    (params : option dict) (attempt_id : Z) : M loop_exit :=
  try_except
    (response <- ws_individual_request (env attempt_id) url attempt_id params ;;
     match response with
     | None => ret LoopNext
     | Some r =>
         if status_code r =? requests_codes_ok then ret (LoopReturn r)
         else ret LoopNext
     end)
    (fun e =>
       if issubclass e SystemExit || issubclass e KeyboardInterrupt then raise e
       else if issubclass e AttributeError then ret LoopNext
       else if issubclass e Exception then ret LoopNext
       else raise e).

(** The [for] loop over the attempt numbers still to run, then line 41. *)
Fixpoint repeats_loop (env : Z -> attempt_env) (url : string)
    (params : option dict) (ids : list Z) : M (option response) :=
  match ids with
  | [] => ret None
  | attempt_id :: rest =>
      exit <- repeats_turn env url params attempt_id ;;
      match exit with
      | LoopReturn r => ret (Some r)
      | LoopNext => repeats_loop env url params rest
      end
  end.

Definition ws_request_with_repeats (env : Z -> attempt_env) (url : string)
    (params : option dict) : M (option response) :=
  config <- read_config ;;
  repeats_loop env url params (range (MAX_CONNECTION_ATTEMPTS config)).

(** ** Vocabulary of the properties *)

(** [time.sleep] accepts the length. *)
Definition sleep_accepts (seconds : float) : bool :=
  match sleep_error seconds with
  | None => true
  | Some _ => false
  end.

(** The number of requests sent so far: the calls of [requests.get]. *)
Fixpoint attempts_made (evs : list event) : nat :=
  match evs with
  | [] => O
  | Get _ :: rest => S (attempts_made rest)
  | Sleep _ :: rest => attempts_made rest
  | Attempt _ :: rest => attempts_made rest
  end.

(** The number of attempts so far: the calls of [ws_individual_request],
    whether or not they got as far as sending their request. *)
Fixpoint calls_made (evs : list event) : nat :=
  match evs with
  | [] => O
  | Attempt _ :: rest => S (calls_made rest)
  | Sleep _ :: rest => calls_made rest
  | Get _ :: rest => calls_made rest
  end.

(** [SystemExit] and [KeyboardInterrupt]: the process is being stopped. *)
Definition cancellation (e : pyclass) : bool :=
  issubclass e SystemExit || issubclass e KeyboardInterrupt.

(** The world in which attempt number [k] of a call of
    [ws_request_with_repeats] starts, when no earlier attempt ended the call:
    the attempts [0 .. k-1] have run one after the other. *)
Fixpoint world_before (env : Z -> attempt_env) (url : string)
    (params : option dict) (w : world) (k : nat) : world :=
  match k with
  | O => w
  | S j =>
      snd (ws_individual_request (env (Z.of_nat j)) url (Z.of_nat j) params
             (world_before env url params w j))
  end.

(** What attempt number [k] yields. *)
Definition attempt_outcome (env : Z -> attempt_env) (url : string)
    (params : option dict) (w : world) (k : nat) : outcome (option response) :=
  fst (ws_individual_request (env (Z.of_nat k)) url (Z.of_nat k) params
         (world_before env url params w k)).

(** An outcome after which the loop goes on: no response, or a response
    whose status is not [requests.codes.ok]. *)
Definition goes_on (o : outcome (option response)) : Prop :=
  o = Returns None \/
  exists r, o = Returns (Some r) /\ status_code r <> requests_codes_ok.

(** A run of individual attempts, each with its own outside world and
    attempt number. *)
Fixpoint after_attempts (script : list (attempt_env * Z)) (url : string)
    (params : option dict) (w : world) : world :=
  match script with
  | [] => w
  | (env, attempt_id) :: rest =>
      after_attempts rest url params
        (snd (ws_individual_request env url attempt_id params w))
  end.

(** [HTTP_PROXY_LIST] holds no proxy that [HTTP_PROXY_LIST_COMPLETE] lacks. *)
Definition pool_within (c : config) : Prop :=
  incl (HTTP_PROXY_LIST c) (HTTP_PROXY_LIST_COMPLETE c).

(** The three ways the proxy list can differ across one attempt. *)
Inductive pool_change (c c' : config) : Prop :=
| pool_kept :
    HTTP_PROXY_LIST c' = HTTP_PROXY_LIST c -> pool_change c c'
| pool_shrunk (p : string) :
    list_remove p (HTTP_PROXY_LIST c) = Some (HTTP_PROXY_LIST c') ->
    pool_change c c'
| pool_reset :
    HTTP_PROXY_LIST c' = HTTP_PROXY_LIST_COMPLETE c -> pool_change c c'.

(** The proxy an attempt draws in configuration [c], lines 64 to 67:
    [None] when the proxy list is empty. *)
Definition chosen_proxy (env : attempt_env) (c : config) : option string :=
  match HTTP_PROXY_LIST c with
  | [] => None
  | l => Some (List.nth (Nat.modulo (proxy_draw env) (List.length l)) l "")
  end.

(** The headers of that attempt, lines 57 to 61. *)
Definition chosen_headers (env : attempt_env) (c : config) : dict :=
  match USER_AGENT_LIST c with
  | [] => [("User-Agent", "Mozilla/5.0")]
  | l => [("User-Agent",
           List.nth (Nat.modulo (user_agent_draw env) (List.length l)) l "")]
  end.

(** The request of that attempt, lines 79 to 81. *)
Definition request_sent (env : attempt_env) (url : string)
    (params : option dict) (c : config) : request :=
  mkRequest url params (HTTP_TIMEOUT c) (chosen_headers env c)
            [("sticky_locale", "en")]
            (option_map proxies_through (chosen_proxy env c)).

(** The length of the sleep of line 52. *)
Definition first_sleep (env : attempt_env) (c : config) : float :=
  (REQUEST_SLEEP c * random_random env)%float.

(** The world once attempt [attempt_id] has been entered. *)
Definition world_at_entry (attempt_id : Z) (w : world) : world :=
  mkWorld (cfg w) (Attempt attempt_id :: effects w).

(** The world once the request of that attempt has been sent, which takes
    that [time.sleep] accepted the length of the first sleep. *)
Definition world_at_request (env : attempt_env) (url : string)
    (attempt_id : Z) (params : option dict) (w : world) : world :=
  mkWorld (cfg w)
          (Get (request_sent env url params (cfg w))
           :: Sleep (first_sleep env (cfg w))
           :: Attempt attempt_id
           :: effects w).

(** Lines 108 and 109, or 116 and 117: the long sleep and the slow-down,
    or the exception of a sleep that is refused. *)
Definition after_long_sleep (w : world) : outcome unit * world :=
  match sleep_error (RE_INIT_SLEEP_TIME (cfg w)) with
  | Some e => (Raises e, w)
  | None =>
      (Returns tt,
       mkWorld (set_REQUEST_SLEEP (REQUEST_SLEEP (cfg w) + 1)%float (cfg w))
               (Sleep (RE_INIT_SLEEP_TIME (cfg w)) :: effects w))
  end.

(** What the handling of a blocked request through [p] comes to, when [p]
    is in the proxy list (lemma [blocked_through_proxy_spec]). *)
Definition after_blocked_through_proxy (env : attempt_env) (p : string)
    (w : world) : outcome unit * world :=
  if remove_draw env then
    match list_remove p (HTTP_PROXY_LIST (cfg w)) with
    | Some [] =>
        after_long_sleep
          (mkWorld (set_HTTP_PROXY_LIST (HTTP_PROXY_LIST_COMPLETE (cfg w)) (cfg w))
                   (effects w))
    | Some l => (Returns tt, mkWorld (set_HTTP_PROXY_LIST l (cfg w)) (effects w))
    | None => (Returns tt, w)
    end
  else (Returns tt, w).

(** What the handling of a blocked request comes to, by the proxy drawn. *)
Definition after_blocked (env : attempt_env) (w : world) : outcome unit * world :=
  match chosen_proxy env (cfg w) with
  | Some p =>
      if truthy p then after_blocked_through_proxy env p w
      else after_long_sleep w
  | None => after_long_sleep w
  end.

(** The attributes of [config] that neither function assigns. *)
Definition same_settings (c c' : config) : Prop :=
  MAX_CONNECTION_ATTEMPTS c' = MAX_CONNECTION_ATTEMPTS c /\
  HTTP_TIMEOUT c' = HTTP_TIMEOUT c /\
  USER_AGENT_LIST c' = USER_AGENT_LIST c /\
  HTTP_PROXY_LIST_COMPLETE c' = HTTP_PROXY_LIST_COMPLETE c /\
  RE_INIT_SLEEP_TIME c' = RE_INIT_SLEEP_TIME c.

(** An effect of a call for [url] and [params] under the time limit
    [timeout]: an attempt, a sleep, or a request for that URL with those
    parameters, that time limit, the locale cookie and one [User-Agent]
    header. *)
Definition made_for (url : string) (params : option dict) (timeout : float)
    (ev : event) : Prop :=
  match ev with
  | Attempt _ => True
  | Sleep _ => True
  | Get rq =>
      req_url rq = url /\ req_params rq = params /\
      req_timeout rq = timeout /\
      req_cookies rq = [("sticky_locale", "en")] /\
      exists user_agent, req_headers rq = [("User-Agent", user_agent)]
  end.

(** ** Concrete sessions, for the examples *)

Definition two_proxies : list string := ["10.0.0.1:3128"; "10.0.0.2:3128"].

Definition example_config (attempts : Z) (pool : list string) : config :=
  mkConfig attempts 2%float 10%float ["agent-a"; "agent-b"] pool two_proxies
           60%float.

Definition example_world (attempts : Z) (pool : list string) : world :=
  mkWorld (example_config attempts pool) [].

(** A session whose [RE_INIT_SLEEP_TIME] is negative. *)
Definition no_pause_world (attempts : Z) (pool : list string) : world :=
  mkWorld (mkConfig attempts 2%float 10%float ["agent-a"; "agent-b"] pool
                    two_proxies (-60)%float) [].

(** A session whose [REQUEST_SLEEP] is negative. *)
Definition no_delay_world (attempts : Z) (pool : list string) : world :=
  mkWorld (mkConfig attempts (-2)%float 10%float ["agent-a"; "agent-b"] pool
                    two_proxies 60%float) [].

(** The web site answers with [status]; [remove] is the draw of line 91. *)
Definition answering (status : Z) (remove : bool) : attempt_env :=
  mkEnv 0.5%float 0 1 remove (fun _ => Responds (mkResponse status "page")).

(** The request fails with the exception [e]. *)
Definition failing (e : pyclass) : attempt_env :=
  mkEnv 0.5%float 0 1 false (fun _ => Fails e).

(** Two connection errors, then status 200. *)
Definition third_time_lucky (attempt_id : Z) : attempt_env :=
  if attempt_id <? 2 then failing ConnectionError else answering 200 false.

(** A session without proxies and without user agents. *)
Definition bare_world : world :=
  mkWorld (mkConfig 3 2%float 10%float [] [] [] 60%float) [].

(** The same with a negative [REQUEST_SLEEP]. *)
Definition bare_no_delay_world : world :=
  mkWorld (mkConfig 3 (-2)%float 10%float [] [] [] 60%float) [].

(** One blocked attempt whose proxy is removed, from the full proxy list. *)
Definition one_removal : list (attempt_env * Z) := [(answering 503 true, 0)].

(** A timeout, then status 404 for ever. *)
Definition never_ok (attempt_id : Z) : attempt_env :=
  if attempt_id <? 1 then failing Timeout else answering 404 true.

(** A connection error, then the user interrupts the program. *)
Definition interrupted (attempt_id : Z) : attempt_env :=
  if attempt_id <? 1 then failing ConnectionError
  else failing KeyboardInterrupt.

(** Two blocked attempts, each removing its proxy. *)
Definition two_removals : list (attempt_env * Z) :=
  [(answering 503 true, 0); (answering 503 true, 1)].

(** ** Basic facts *)

Lemma cancellation_cases (e : pyclass) :
  cancellation e = true <-> e = SystemExit \/ e = KeyboardInterrupt.
Proof.
  split.
  - destruct e; simpl; intros H; try discriminate; auto.
  - intros [-> | ->]; reflexivity.
Qed.

(** Every exception that is not a cancellation derives from [Exception]. *)
Lemma not_cancellation_Exception (e : pyclass) :
  cancellation e = false -> issubclass e Exception = true.
Proof. destruct e; simpl; intros H; try discriminate; reflexivity. Qed.

(** The handlers of [ws_individual_request] re-raise a cancellation and turn
    everything else into [None]; they do not touch the world. *)
Lemma handlers_spec (e : pyclass) (w : world) :
  individual_request_handlers e w =
  if cancellation e then (Raises e, w) else (Returns None, w).
Proof. destruct e; reflexivity. Qed.

(** A sleep that is refused is refused with a [ValueError] or an
    [OverflowError], never with a cancellation. *)
Lemma sleep_error_not_cancellation (seconds : float) (e : pyclass) :
  sleep_error seconds = Some e -> cancellation e = false.
Proof.
  unfold sleep_error.
  destruct (is_nan seconds); [intros [= <-]; reflexivity|].
  destruct (negb _); [intros [= <-]; reflexivity|].
  destruct (seconds <? 0)%float; [intros [= <-]; reflexivity | discriminate].
Qed.

Lemma sleep_accepts_error (seconds : float) :
  sleep_accepts seconds = true <-> sleep_error seconds = None.
Proof.
  unfold sleep_accepts. destruct (sleep_error seconds); split;
    congruence.
Qed.

Lemma list_remove_incl (x : string) (l l' : list string) :
  list_remove x l = Some l' -> incl l' l.
Proof.
  revert l'. induction l as [|y t IH]; simpl; intros l' H; [discriminate|].
  destruct (String.eqb y x).
  - injection H as <-. apply incl_tl, incl_refl.
  - destruct (list_remove x t) as [t'|]; simpl in H; [|discriminate].
    injection H as <-. intros z [->|Hz]; [left; reflexivity|].
    right. apply (IH t' eq_refl z Hz).
Qed.

(** [l.remove(x)] succeeds on a member of [l]. *)
Lemma list_remove_In (x : string) (l : list string) :
  In x l -> exists l', list_remove x l = Some l'.
Proof.
  induction l as [|y t IH]; simpl; intros H; [contradiction|].
  destruct (String.eqb_spec y x) as [_|Hne]; [eexists; reflexivity|].
  destruct H as [H|H]; [congruence|].
  destruct (IH H) as [t' ->]. simpl. eexists; reflexivity.
Qed.

Lemma list_remove_length (x : string) (l l' : list string) :
  list_remove x l = Some l' -> List.length l = S (List.length l').
Proof.
  revert l'. induction l as [|y t IH]; simpl; intros l' H; [discriminate|].
  destruct (String.eqb y x).
  - injection H as <-. reflexivity.
  - destruct (list_remove x t) as [t'|]; simpl in H; [|discriminate].
    injection H as <-. simpl. f_equal. apply IH. reflexivity.
Qed.

Lemma chosen_proxy_In (env : attempt_env) (c : config) (p : string) :
  chosen_proxy env c = Some p -> In p (HTTP_PROXY_LIST c).
Proof.
  unfold chosen_proxy. destruct (HTTP_PROXY_LIST c) as [|q qs]; [discriminate|].
  intros H.
  assert (Hn : (Nat.modulo (proxy_draw env) (List.length (q :: qs))
                < List.length (q :: qs))%nat)
    by (apply Nat.mod_upper_bound; discriminate).
  injection H as H. rewrite <- H. exact (nth_In (q :: qs) "" Hn).
Qed.

Lemma truthy_nonempty (p : string) : p <> "" -> truthy p = true.
Proof.
  intros Hp. unfold truthy. apply negb_true_iff. apply String.eqb_neq. exact Hp.
Qed.

(** ** ws_individual_request, step by step *)

(** The body of the [try] block first sleeps; if [time.sleep] refuses the
    length nothing else happens; otherwise the body sends [request_sent] and
    goes on according to the answer. *)
Lemma body_unfold (env : attempt_env) (url : string) (params : option dict)
    (w : world) :
  individual_request_body env url params w =
  match sleep_error (first_sleep env (cfg w)) with
  | Some e => (Raises e, w)
  | None =>
      let w2 :=
        mkWorld (cfg w)
                (Get (request_sent env url params (cfg w))
                 :: Sleep (first_sleep env (cfg w)) :: effects w) in
      match network env (request_sent env url params (cfg w)) with
      | Fails e => (Raises e, w2)
      | Responds r =>
          if status_code r <? 300 then (Returns (Some r), w2)
          else
            (match chosen_proxy env (cfg w) with
             | Some p =>
                 if truthy p then blocked_through_proxy env p
                 else blocked_directly
             | None => blocked_directly
             end ;; ret (Some r)) w2
      end
  end.
Proof.
  unfold individual_request_body, request_sent, chosen_headers, chosen_proxy,
    first_sleep.
  destruct w as [c evs].
  cbv [bind ret raise read_config time_sleep emit requests_get random_choice
       len cfg effects].
  destruct (sleep_error (REQUEST_SLEEP c * random_random env)); [reflexivity|].
  destruct (USER_AGENT_LIST c) as [|ua uas];
    destruct (HTTP_PROXY_LIST c) as [|px pxs]; simpl;
    (match goal with
     | |- context [network env ?rq] => destruct (network env rq) as [r|e]
     end;
     [ destruct (status_code r <? 300); reflexivity | reflexivity ]).
Qed.

Lemma blocked_directly_spec (w : world) :
  blocked_directly w = after_long_sleep w.
Proof.
  unfold blocked_directly, after_long_sleep, REQUEST_SLEEP_add_one.
  unfold bind, ret, raise, read_config, write_config, time_sleep, emit.
  destruct (sleep_error (RE_INIT_SLEEP_TIME (cfg w))); reflexivity.
Qed.

Lemma blocked_through_proxy_spec (env : attempt_env) (p : string) (w : world) :
  In p (HTTP_PROXY_LIST (cfg w)) ->
  blocked_through_proxy env p w = after_blocked_through_proxy env p w.
Proof.
  intros Hin. destruct (list_remove_In p _ Hin) as [l Hl].
  assert (Hpos : (0 <? len (HTTP_PROXY_LIST (cfg w))) = true).
  { unfold len. destruct (HTTP_PROXY_LIST (cfg w)); [contradiction|reflexivity]. }
  assert (Hnz : (len (HTTP_PROXY_LIST (cfg w)) =? 0) = false).
  { unfold len. destruct (HTTP_PROXY_LIST (cfg w)); [contradiction|reflexivity]. }
  destruct w as [c evs]. simpl in *.
  unfold blocked_through_proxy, after_blocked_through_proxy, after_long_sleep,
    HTTP_PROXY_LIST_remove, REQUEST_SLEEP_add_one.
  unfold bind, ret, raise, read_config, write_config, time_sleep, emit.
  simpl. rewrite Hpos, Hl.
  destruct (remove_draw env); simpl.
  - rewrite Hl. simpl. destruct l as [|y l]; [|reflexivity].
    simpl. destruct (sleep_error (RE_INIT_SLEEP_TIME c)); reflexivity.
  - rewrite Hnz. reflexivity.
Qed.

(** The two cases of the long sleep, under the handlers of line 119 on. *)
Ltac long_sleep_cases :=
  unfold after_long_sleep; simpl;
  match goal with
  | |- context [sleep_error ?s] =>
      let H := fresh "Hlong" in
      destruct (sleep_error s) eqn:H;
      [ rewrite handlers_spec, (sleep_error_not_cancellation _ _ H) | ];
      reflexivity
  end.

(** The whole of [ws_individual_request] in closed form. *)
Lemma attempt_unfold (env : attempt_env) (url : string) (attempt_id : Z)
    (params : option dict) (w : world) :
  ws_individual_request env url attempt_id params w =
  match sleep_error (first_sleep env (cfg w)) with
  | Some _ => (Returns None, world_at_entry attempt_id w)
  | None =>
      let w2 := world_at_request env url attempt_id params w in
      match network env (request_sent env url params (cfg w)) with
      | Fails e => (if cancellation e then Raises e else Returns None, w2)
      | Responds r =>
          if status_code r <? 300 then (Returns (Some r), w2)
          else
            match after_blocked env w2 with
            | (Returns _, w3) => (Returns (Some r), w3)
            | (Raises _, w3) => (Returns None, w3)
            end
      end
  end.
Proof.
  unfold ws_individual_request.
  change ((emit (Attempt attempt_id) ;;
           try_except (individual_request_body env url params)
             individual_request_handlers) w)
    with (try_except (individual_request_body env url params)
            individual_request_handlers (world_at_entry attempt_id w)).
  unfold try_except. rewrite body_unfold.
  change (cfg (world_at_entry attempt_id w)) with (cfg w).
  destruct (sleep_error (first_sleep env (cfg w))) as [e0|] eqn:Hsleep.
  { rewrite handlers_spec, (sleep_error_not_cancellation _ _ Hsleep).
    reflexivity. }
  cbv zeta.
  change (mkWorld (cfg w)
            (Get (request_sent env url params (cfg w))
             :: Sleep (first_sleep env (cfg w))
             :: effects (world_at_entry attempt_id w)))
    with (world_at_request env url attempt_id params w).
  destruct (network env _) as [r|e].
  - destruct (status_code r <? 300); [reflexivity|].
    unfold after_blocked, bind, ret.
    change (cfg (world_at_request env url attempt_id params w)) with (cfg w).
    destruct (chosen_proxy env (cfg w)) as [p|] eqn:Hp;
      [|rewrite blocked_directly_spec; long_sleep_cases].
    destruct (truthy p); [|rewrite blocked_directly_spec; long_sleep_cases].
    rewrite blocked_through_proxy_spec
      by (apply (chosen_proxy_In env); exact Hp).
    unfold after_blocked_through_proxy.
    destruct (remove_draw env); [|reflexivity].
    change (cfg (world_at_request env url attempt_id params w)) with (cfg w).
    destruct (list_remove p (HTTP_PROXY_LIST (cfg w))) as [[|y l]|];
      [|reflexivity|reflexivity].
    long_sleep_cases.
  - rewrite handlers_spec. destruct (cancellation e); reflexivity.
Qed.

(** The cases of [after_blocked env w]: the proxy drawn, its truth value,
    the draw of line 91, what the removal leaves, and the long sleep. *)
Ltac blocked_cases env w :=
  unfold after_blocked, after_blocked_through_proxy, after_long_sleep;
  let p := fresh "p" in
  destruct (chosen_proxy env (cfg w)) as [p|];
  [ destruct (truthy p);
    [ destruct (remove_draw env);
      [ destruct (list_remove p (HTTP_PROXY_LIST (cfg w))) as [[|? ?]|] | ]
    | ]
  | ];
  simpl;
  try match goal with
      | |- context [sleep_error ?s] => destruct (sleep_error s)
      end;
  simpl.

(** The cases of one call of [ws_individual_request], from its closed form. *)
Ltac attempt_cases env url attempt_id params w :=
  rewrite (attempt_unfold env url attempt_id params w);
  let Hfirst := fresh "Hfirst" in
  destruct (sleep_error (first_sleep env (cfg w))) eqn:Hfirst;
  [ | cbv zeta;
      let r := fresh "r" in
      let e := fresh "e" in
      let Hnet := fresh "Hnet" in
      let Hstatus := fresh "Hstatus" in
      destruct (network env (request_sent env url params (cfg w)))
        as [r|e] eqn:Hnet;
      [ destruct (status_code r <? 300) eqn:Hstatus | ] ].

(** The world one call of [ws_individual_request] leaves. *)
Lemma attempt_world (env : attempt_env) (url : string) (attempt_id : Z)
    (params : option dict) (w : world) :
  snd (ws_individual_request env url attempt_id params w) =
  match sleep_error (first_sleep env (cfg w)) with
  | Some _ => world_at_entry attempt_id w
  | None =>
      match network env (request_sent env url params (cfg w)) with
      | Fails _ => world_at_request env url attempt_id params w
      | Responds r =>
          if status_code r <? 300
          then world_at_request env url attempt_id params w
          else snd (after_blocked env
                      (world_at_request env url attempt_id params w))
      end
  end.
Proof.
  attempt_cases env url attempt_id params w; try reflexivity.
  destruct (after_blocked env _) as [[u|e] w3]; reflexivity.
Qed.

(** ** The effects of one attempt *)

Lemma after_blocked_effects (env : attempt_env) (w : world) :
  effects (snd (after_blocked env w)) = effects w \/
  effects (snd (after_blocked env w))
  = Sleep (RE_INIT_SLEEP_TIME (cfg w)) :: effects w.
Proof. blocked_cases env w; auto. Qed.

(** Every call of [ws_individual_request] is recorded once. *)
Lemma one_call_per_attempt (env : attempt_env) (url : string) (attempt_id : Z)
    (params : option dict) (w : world) :
  calls_made (effects (snd (ws_individual_request env url attempt_id params w)))
  = S (calls_made (effects w)).
Proof.
  rewrite attempt_world.
  destruct (sleep_error _); [reflexivity|].
  destruct (network env _) as [r|e]; [|reflexivity].
  destruct (status_code r <? 300); [reflexivity|].
  destruct (after_blocked_effects env
              (world_at_request env url attempt_id params w)) as [H|H];
    rewrite H; reflexivity.
Qed.

(** A call of [ws_individual_request] sends one request, or none. *)
Lemma at_most_one_request (env : attempt_env) (url : string) (attempt_id : Z)
    (params : option dict) (w : world) :
  (attempts_made (effects w)
   <= attempts_made
        (effects (snd (ws_individual_request env url attempt_id params w)))
   <= S (attempts_made (effects w)))%nat.
Proof.
  rewrite attempt_world.
  destruct (sleep_error _); [simpl; lia|].
  destruct (network env _) as [r|e]; [|simpl; lia].
  destruct (status_code r <? 300); [simpl; lia|].
  destruct (after_blocked_effects env
              (world_at_request env url attempt_id params w)) as [H|H];
    rewrite H; simpl; lia.
Qed.

(** An attempt that returns a response has sent its request, and the
    response is the answer to it. *)
Lemma response_takes_a_request (env : attempt_env) (url : string)
    (attempt_id : Z) (params : option dict) (w : world) (r : response) :
  fst (ws_individual_request env url attempt_id params w) = Returns (Some r) ->
  sleep_error (first_sleep env (cfg w)) = None /\
  network env (request_sent env url params (cfg w)) = Responds r /\
  attempts_made
    (effects (snd (ws_individual_request env url attempt_id params w)))
  = S (attempts_made (effects w)).
Proof.
  attempt_cases env url attempt_id params w; simpl.
  - discriminate.
  - intros [= ->]. repeat split.
  - destruct (after_blocked_effects env
                (world_at_request env url attempt_id params w)) as [H|H];
      destruct (after_blocked env _) as [[u|e] w3]; simpl in *;
      try discriminate; intros [= ->]; rewrite H; repeat split.
  - destruct (cancellation e); discriminate.
Qed.

Lemma calls_before (env : Z -> attempt_env) (url : string)
    (params : option dict) (w : world) (k : nat) :
  calls_made (effects (world_before env url params w k))
  = (calls_made (effects w) + k)%nat.
Proof.
  induction k as [|k IH]; simpl.
  - rewrite Nat.add_0_r. reflexivity.
  - rewrite one_call_per_attempt, IH. lia.
Qed.

(** ** The loop of ws_request_with_repeats *)

(** One turn of the loop, by what the attempt yields. *)
Lemma turn_unfold (env : Z -> attempt_env) (url : string)
    (params : option dict) (attempt_id : Z) (w : world) :
  repeats_turn env url params attempt_id w =
  match ws_individual_request (env attempt_id) url attempt_id params w with
  | (Returns None, w') => (Returns LoopNext, w')
  | (Returns (Some r), w') =>
      (Returns (if status_code r =? requests_codes_ok then LoopReturn r
                else LoopNext), w')
  | (Raises e, w') =>
      (if cancellation e then Raises e else Returns LoopNext, w')
  end.
Proof.
  unfold repeats_turn, try_except, bind, ret, raise.
  destruct (ws_individual_request _ _ _ _ w) as [[[r|]|e] w'].
  - destruct (status_code r =? requests_codes_ok); reflexivity.
  - reflexivity.
  - destruct e; reflexivity.
Qed.

Lemma loop_cons (env : Z -> attempt_env) (url : string) (params : option dict)
    (attempt_id : Z) (rest : list Z) (w : world) :
  repeats_loop env url params (attempt_id :: rest) w =
  match repeats_turn env url params attempt_id w with
  | (Returns (LoopReturn r), w') => (Returns (Some r), w')
  | (Returns LoopNext, w') => repeats_loop env url params rest w'
  | (Raises e, w') => (Raises e, w')
  end.
Proof.
  simpl. unfold bind.
  destruct (repeats_turn env url params attempt_id w) as [[[r|]|e] w'];
    reflexivity.
Qed.

(** An attempt after which the loop goes on hands its world to the next. *)
Lemma loop_step_goes_on (env : Z -> attempt_env) (url : string)
    (params : option dict) (w : world) (k : nat) (rest : list Z) :
  goes_on (attempt_outcome env url params w k) ->
  repeats_loop env url params (Z.of_nat k :: rest)
    (world_before env url params w k)
  = repeats_loop env url params rest (world_before env url params w (S k)).
Proof.
  unfold attempt_outcome. intros Hgo.
  rewrite loop_cons, turn_unfold. simpl world_before.
  destruct (ws_individual_request _ _ _ _ (world_before env url params w k))
    as [o w'].
  simpl in Hgo |- *.
  destruct Hgo as [-> | (r & -> & Hr)]; [reflexivity|].
  apply Z.eqb_neq in Hr. rewrite Hr. reflexivity.
Qed.

Lemma loop_goes_on (env : Z -> attempt_env) (url : string)
    (params : option dict) (w : world) (n : nat) :
  forall (s : nat) (rest : list Z),
    (forall i, (s <= i < s + n)%nat ->
               goes_on (attempt_outcome env url params w i)) ->
    repeats_loop env url params (List.map Z.of_nat (List.seq s n) ++ rest)%list
      (world_before env url params w s)
    = repeats_loop env url params rest (world_before env url params w (s + n)).
Proof.
  induction n as [|n IH]; intros s rest Hgo.
  - rewrite Nat.add_0_r. reflexivity.
  - cbn [List.seq List.map app].
    rewrite loop_step_goes_on by (apply Hgo; lia).
    rewrite IH by (intros i Hi; apply Hgo; lia).
    f_equal. f_equal. lia.
Qed.

Lemma range_split (n k : nat) :
  (k < n)%nat ->
  range (Z.of_nat n) =
  (List.map Z.of_nat (List.seq 0 k)
   ++ Z.of_nat k :: List.map Z.of_nat (List.seq (S k) (n - S k)))%list.
Proof.
  intros Hk. unfold range. rewrite Nat2Z.id.
  replace n with (k + S (n - S k))%nat at 1 by lia.
  rewrite seq_app, map_app. reflexivity.
Qed.

(** The loop runs the attempts [0 .. k-1], then attempt [k] decides. *)
Lemma loop_reaches (env : Z -> attempt_env) (url : string)
    (params : option dict) (w : world) (N : Z) (k : nat) :
  MAX_CONNECTION_ATTEMPTS (cfg w) = N ->
  Z.of_nat k < N ->
  (forall i, (i < k)%nat -> goes_on (attempt_outcome env url params w i)) ->
  ws_request_with_repeats env url params w
  = repeats_loop env url params
      (Z.of_nat k :: List.map Z.of_nat (List.seq (S k) (Z.to_nat N - S k)))
      (world_before env url params w k).
Proof.
  intros Hmax Hk Hbefore.
  unfold ws_request_with_repeats, bind, read_config. rewrite Hmax.
  rewrite <- (Z2Nat.id N) at 1 by lia.
  rewrite (range_split (Z.to_nat N) k) by lia.
  change w with (world_before env url params w 0) at 1.
  rewrite loop_goes_on by (intros i Hi; apply Hbefore; lia).
  reflexivity.
Qed.

(** When the loop goes on after every attempt, the call ends with [None]
    in the world the last attempt left. *)
Lemma loop_exhausted (env : Z -> attempt_env) (url : string)
    (params : option dict) (w : world) (N : Z) :
  MAX_CONNECTION_ATTEMPTS (cfg w) = N ->
  (forall k, (k < Z.to_nat N)%nat ->
             goes_on (attempt_outcome env url params w k)) ->
  ws_request_with_repeats env url params w
  = (Returns None, world_before env url params w (Z.to_nat N)).
Proof.
  intros Hmax Hgo.
  unfold ws_request_with_repeats, bind, read_config, range. rewrite Hmax.
  rewrite <- (app_nil_r (List.map Z.of_nat (List.seq 0 (Z.to_nat N)))).
  change w with (world_before env url params w 0) at 1.
  rewrite loop_goes_on; [reflexivity|].
  intros i Hi. apply Hgo. lia.
Qed.

(** ** Properties of ws_request_with_repeats *)

(** C10: when [MAX_CONNECTION_ATTEMPTS] is zero or negative,
    [ws_request_with_repeats] returns [None] at once: the world it leaves is
    the world it started in, so no attempt was made, nothing slept, and no
    attribute of [config] changed. *)
Theorem no_attempt_without_budget (env : Z -> attempt_env) (url : string)
    (params : option dict) (w : world) :
  MAX_CONNECTION_ATTEMPTS (cfg w) <= 0 ->
  ws_request_with_repeats env url params w = (Returns None, w).
Proof.
  intros Hmax. unfold ws_request_with_repeats, bind, read_config, range.
  replace (Z.to_nat (MAX_CONNECTION_ATTEMPTS (cfg w))) with O by lia.
  reflexivity.
Qed.

Lemma no_attempt_without_budget_witness :
  MAX_CONNECTION_ATTEMPTS (cfg (example_world (-3) two_proxies)) <= 0 /\
  ws_request_with_repeats third_time_lucky "https://www.airbnb.com/s/Paris" None
    (example_world (-3) two_proxies)
  = (Returns None, example_world (-3) two_proxies).
Proof.
  split; [simpl; lia|].
  apply (no_attempt_without_budget third_time_lucky
           "https://www.airbnb.com/s/Paris" None (example_world (-3) two_proxies)).
  simpl; lia.
Defined.

(** C2: with [MAX_CONNECTION_ATTEMPTS = N >= 1], if every attempt yields
    [None] (a transient failure), [ws_request_with_repeats] makes exactly [N]
    attempts and returns [None]: the world it leaves is the one the attempts
    [0 .. N-1] leave when run one after the other, and [N] calls of
    [ws_individual_request] have been added to the trace. *)
Theorem exhausted_after_N_failures (env : Z -> attempt_env) (url : string)
    (params : option dict) (w : world) (N : Z) :
  MAX_CONNECTION_ATTEMPTS (cfg w) = N ->
  1 <= N ->
  (forall k, (k < Z.to_nat N)%nat ->
             attempt_outcome env url params w k = Returns None) ->
  ws_request_with_repeats env url params w
  = (Returns None, world_before env url params w (Z.to_nat N)) /\
  calls_made (effects (snd (ws_request_with_repeats env url params w)))
  = (calls_made (effects w) + Z.to_nat N)%nat.
Proof.
  intros Hmax HN Hnone.
  rewrite (loop_exhausted env url params w N Hmax)
    by (intros k Hk; left; apply Hnone; exact Hk).
  split; [reflexivity|]. apply calls_before.
Qed.

Lemma exhausted_after_N_failures_witness :
  fst (ws_request_with_repeats (fun _ => failing ConnectionError)
         "https://www.airbnb.com/s/Paris" None (example_world 3 two_proxies))
  = Returns None /\
  calls_made
    (effects (snd (ws_request_with_repeats (fun _ => failing ConnectionError)
                     "https://www.airbnb.com/s/Paris" None
                     (example_world 3 two_proxies))))
  = (calls_made (effects (example_world 3 two_proxies)) + Z.to_nat 3)%nat.
Proof.
  destruct (exhausted_after_N_failures (fun _ => failing ConnectionError)
              "https://www.airbnb.com/s/Paris" None
              (example_world 3 two_proxies) 3) as [Hrun Hcalls].
  - reflexivity.
  - lia.
  - intros k Hk.
    destruct k as [|[|[|k]]]; [reflexivity | reflexivity | reflexivity |].
    simpl in Hk. lia.
  - split; [rewrite Hrun; reflexivity | exact Hcalls].
Defined.




(** C3, as the code has it: with [MAX_CONNECTION_ATTEMPTS = N] and [k < N],
    if after each of the attempts [0 .. k-1] the loop goes on (no response, or
    a response whose status is not 200) and attempt [k] yields a response
    with status 200, then [ws_request_with_repeats] returns that response
    and has made exactly [k+1] attempts: the world it leaves is the one the
    attempts [0 .. k] leave when run one after the other, and [k+1] calls of
    [ws_individual_request] have been added to the trace. *)
Theorem first_ok_response_ends_the_call (env : Z -> attempt_env) (url : string)
    (params : option dict) (w : world) (N : Z) (k : nat) (r : response) :
  MAX_CONNECTION_ATTEMPTS (cfg w) = N ->
  Z.of_nat k < N ->
  (forall i, (i < k)%nat -> goes_on (attempt_outcome env url params w i)) ->
  attempt_outcome env url params w k = Returns (Some r) ->
  status_code r = requests_codes_ok ->
  ws_request_with_repeats env url params w
  = (Returns (Some r), world_before env url params w (S k)) /\
  calls_made (effects (snd (ws_request_with_repeats env url params w)))
  = (calls_made (effects w) + (k + 1))%nat.
Proof.
  intros Hmax Hk Hbefore Hat Hok.
  assert (Hrun : ws_request_with_repeats env url params w
                 = (Returns (Some r), world_before env url params w (S k))).
  { rewrite (loop_reaches env url params w N k Hmax Hk Hbefore).
    rewrite loop_cons, turn_unfold. simpl world_before.
    unfold attempt_outcome in Hat.
    destruct (ws_individual_request _ _ _ _ (world_before env url params w k))
      as [o w'].
    simpl in Hat |- *. rewrite Hat, Hok. reflexivity. }
  rewrite Hrun. split; [reflexivity|].
  cbn [snd]. rewrite calls_before. lia.
Qed.

Lemma first_ok_response_ends_the_call_witness :
  fst (ws_request_with_repeats third_time_lucky "https://www.airbnb.com/s/Paris"
         None (example_world 3 two_proxies))
  = Returns (Some (mkResponse 200 "page")) /\
  calls_made
    (effects (snd (ws_request_with_repeats third_time_lucky
                     "https://www.airbnb.com/s/Paris" None
                     (example_world 3 two_proxies))))
  = (calls_made (effects (example_world 3 two_proxies)) + (2 + 1))%nat.
Proof.
  destruct (first_ok_response_ends_the_call third_time_lucky
              "https://www.airbnb.com/s/Paris" None
              (example_world 3 two_proxies) 3 2 (mkResponse 200 "page"))
    as [Hrun Hcalls].
  - reflexivity.
  - lia.
  - intros i Hi. left.
    destruct i as [|[|i]]; [reflexivity | reflexivity |]. lia.
  - reflexivity.
  - reflexivity.
  - split; [rewrite Hrun; reflexivity | exact Hcalls].
Defined.

(** C3 as stated fails: with one attempt allowed, an attempt that succeeds
    with status 201 (below 300) is not returned; the call ends with [None]. *)
Lemma success_201_not_returned :
  (0 < MAX_CONNECTION_ATTEMPTS (cfg (example_world 1 two_proxies))) /\
  attempt_outcome (fun _ => answering 201 false)
    "https://www.airbnb.com/s/Paris" None (example_world 1 two_proxies) 0
  = Returns (Some (mkResponse 201 "page")) /\
  status_code (mkResponse 201 "page") < 300 /\
  fst (ws_request_with_repeats (fun _ => answering 201 false)
         "https://www.airbnb.com/s/Paris" None (example_world 1 two_proxies))
  = Returns None.
Proof. repeat split. Qed.

(** ** The proxy list *)

Lemma after_blocked_pool (env : attempt_env) (w : world) :
  HTTP_PROXY_LIST_COMPLETE (cfg (snd (after_blocked env w)))
  = HTTP_PROXY_LIST_COMPLETE (cfg w) /\
  pool_change (cfg w) (cfg (snd (after_blocked env w))).
Proof.
  unfold after_blocked, after_blocked_through_proxy, after_long_sleep.
  destruct (chosen_proxy env (cfg w)) as [p|].
  - destruct (truthy p).
    + destruct (remove_draw env);
        [|split; [reflexivity | apply pool_kept; reflexivity]].
      destruct (list_remove p (HTTP_PROXY_LIST (cfg w))) as [[|y l]|] eqn:Hrm.
      * simpl. destruct (sleep_error (RE_INIT_SLEEP_TIME (cfg w)));
          (split; [reflexivity | apply pool_reset; reflexivity]).
      * split; [reflexivity | apply (pool_shrunk _ _ p); exact Hrm].
      * split; [reflexivity | apply pool_kept; reflexivity].
    + destruct (sleep_error (RE_INIT_SLEEP_TIME (cfg w)));
        (split; [reflexivity | apply pool_kept; reflexivity]).
  - destruct (sleep_error (RE_INIT_SLEEP_TIME (cfg w)));
      (split; [reflexivity | apply pool_kept; reflexivity]).
Qed.

(** One attempt leaves [HTTP_PROXY_LIST_COMPLETE] alone and changes
    [HTTP_PROXY_LIST] in one of the three ways of [pool_change]. *)
Lemma attempt_pool (env : attempt_env) (url : string) (attempt_id : Z)
    (params : option dict) (w : world) :
  HTTP_PROXY_LIST_COMPLETE
    (cfg (snd (ws_individual_request env url attempt_id params w)))
  = HTTP_PROXY_LIST_COMPLETE (cfg w) /\
  pool_change (cfg w)
    (cfg (snd (ws_individual_request env url attempt_id params w))).
Proof.
  rewrite attempt_world.
  destruct (sleep_error _);
    [split; [reflexivity | apply pool_kept; reflexivity]|].
  destruct (network env _) as [r|e];
    [|split; [reflexivity | apply pool_kept; reflexivity]].
  destruct (status_code r <? 300);
    [split; [reflexivity | apply pool_kept; reflexivity]|].
  apply (after_blocked_pool env (world_at_request env url attempt_id params w)).
Qed.

Lemma pool_change_within (c c' : config) :
  HTTP_PROXY_LIST_COMPLETE c' = HTTP_PROXY_LIST_COMPLETE c ->
  pool_change c c' -> pool_within c -> pool_within c'.
Proof.
  unfold pool_within. intros Hcomplete Hchange Hin. rewrite Hcomplete.
  inversion Hchange as [Hkept | p Hshrunk | Hreset].
  - rewrite Hkept. exact Hin.
  - apply incl_tran with (m := HTTP_PROXY_LIST c); [|exact Hin].
    apply (list_remove_incl p). exact Hshrunk.
  - rewrite Hreset. apply incl_refl.
Qed.

Lemma after_attempts_pool (url : string) (params : option dict)
    (script : list (attempt_env * Z)) :
  forall w : world,
    pool_within (cfg w) ->
    pool_within (cfg (after_attempts script url params w)) /\
    HTTP_PROXY_LIST_COMPLETE (cfg (after_attempts script url params w))
    = HTTP_PROXY_LIST_COMPLETE (cfg w).
Proof.
  induction script as [|[env attempt_id] script IH]; intros w Hin; simpl.
  - split; [exact Hin | reflexivity].
  - destruct (attempt_pool env url attempt_id params w) as [Hcomplete Hchange].
    destruct (IH (snd (ws_individual_request env url attempt_id params w)))
      as [Hin' Hcomplete'].
    + apply (pool_change_within (cfg w)); assumption.
    + split; [exact Hin'|]. rewrite Hcomplete'. exact Hcomplete.
Qed.

(** The world [ws_request_with_repeats] leaves is the world after a run of
    individual attempts. *)
Lemma loop_is_a_run (env : Z -> attempt_env) (url : string)
    (params : option dict) (ids : list Z) :
  forall w : world,
  exists script,
    snd (repeats_loop env url params ids w) = after_attempts script url params w.
Proof.
  induction ids as [|attempt_id rest IH]; intros w.
  - exists []. reflexivity.
  - rewrite loop_cons, turn_unfold.
    destruct (ws_individual_request (env attempt_id) url attempt_id params w)
      as [[[r|]|e] w'] eqn:Hcall.
    + destruct (status_code r =? requests_codes_ok).
      * exists [(env attempt_id, attempt_id)]. simpl. rewrite Hcall. reflexivity.
      * destruct (IH w') as [script Hscript].
        exists ((env attempt_id, attempt_id) :: script).
        simpl. rewrite Hcall. exact Hscript.
    + destruct (IH w') as [script Hscript].
      exists ((env attempt_id, attempt_id) :: script).
      simpl. rewrite Hcall. exact Hscript.
    + destruct (cancellation e).
      * exists [(env attempt_id, attempt_id)]. simpl. rewrite Hcall. reflexivity.
      * destruct (IH w') as [script Hscript].
        exists ((env attempt_id, attempt_id) :: script).
        simpl. rewrite Hcall. exact Hscript.
Qed.

(** C4: if [HTTP_PROXY_LIST] is within [HTTP_PROXY_LIST_COMPLETE] at the
    start, it is within it after every run of attempts, whatever the draws
    and the answers of the network, and after every call of
    [ws_request_with_repeats]; [HTTP_PROXY_LIST_COMPLETE] itself never
    changes; and each further attempt keeps the list, removes one proxy from
    it, or resets it to [HTTP_PROXY_LIST_COMPLETE]. *)
Theorem proxy_list_within_complete_list (url : string) (params : option dict)
    (w : world) (script : list (attempt_env * Z)) :
  pool_within (cfg w) ->
  pool_within (cfg (after_attempts script url params w)) /\
  HTTP_PROXY_LIST_COMPLETE (cfg (after_attempts script url params w))
  = HTTP_PROXY_LIST_COMPLETE (cfg w) /\
  (forall (env : attempt_env) (attempt_id : Z),
      pool_change (cfg (after_attempts script url params w))
        (cfg (snd (ws_individual_request env url attempt_id params
                     (after_attempts script url params w))))) /\
  (forall env : Z -> attempt_env,
      pool_within
        (cfg (snd (ws_request_with_repeats env url params
                     (after_attempts script url params w))))).
Proof.
  intros Hin.
  destruct (after_attempts_pool url params script w Hin) as [Hin' Hcomplete].
  repeat split; try assumption.
  - intros env attempt_id. apply attempt_pool.
  - intros env. unfold ws_request_with_repeats, bind, read_config.
    destruct (loop_is_a_run env url params
                (range (MAX_CONNECTION_ATTEMPTS
                          (cfg (after_attempts script url params w))))
                (after_attempts script url params w)) as [script' Hrun].
    rewrite Hrun. apply after_attempts_pool. exact Hin'.
Qed.

Lemma proxy_list_within_complete_list_witness :
  pool_within
    (cfg (after_attempts one_removal "https://www.airbnb.com/s/Paris" None
            (example_world 3 two_proxies))) /\
  HTTP_PROXY_LIST
    (cfg (after_attempts one_removal "https://www.airbnb.com/s/Paris" None
            (example_world 3 two_proxies)))
  = ["10.0.0.1:3128"].
Proof.
  split; [|reflexivity].
  apply (proxy_list_within_complete_list "https://www.airbnb.com/s/Paris" None
           (example_world 3 two_proxies) one_removal).
  unfold pool_within. simpl. intros x Hx. exact Hx.
Defined.

(** C5, as the code has it: when [HTTP_PROXY_LIST] holds one proxy, whose
    name is not the empty string, the request through it is sent and answered
    with a status of 300 or more, and the draw of line 91 says "remove", then
    after the attempt [HTTP_PROXY_LIST] equals [HTTP_PROXY_LIST_COMPLETE];
    and when [time.sleep] accepts [RE_INIT_SLEEP_TIME], [REQUEST_SLEEP] is its
    old value plus 1.0 and the response is returned, while otherwise
    [REQUEST_SLEEP] is unchanged and the attempt yields [None]. *)
Theorem last_proxy_removed_then_refilled (env : attempt_env) (url : string)
    (attempt_id : Z) (params : option dict) (w : world) (p : string)
    (r : response) :
  HTTP_PROXY_LIST (cfg w) = [p] ->
  p <> "" ->
  sleep_accepts (first_sleep env (cfg w)) = true ->
  network env (request_sent env url params (cfg w)) = Responds r ->
  300 <= status_code r ->
  remove_draw env = true ->
  req_proxies (request_sent env url params (cfg w)) = Some (proxies_through p) /\
  In (Get (request_sent env url params (cfg w)))
     (effects (snd (ws_individual_request env url attempt_id params w))) /\
  HTTP_PROXY_LIST (cfg (snd (ws_individual_request env url attempt_id params w)))
  = HTTP_PROXY_LIST_COMPLETE (cfg w) /\
  HTTP_PROXY_LIST_COMPLETE
    (cfg (snd (ws_individual_request env url attempt_id params w)))
  = HTTP_PROXY_LIST_COMPLETE (cfg w) /\
  (sleep_accepts (RE_INIT_SLEEP_TIME (cfg w)) = true ->
   REQUEST_SLEEP (cfg (snd (ws_individual_request env url attempt_id params w)))
   = (REQUEST_SLEEP (cfg w) + 1)%float /\
   fst (ws_individual_request env url attempt_id params w) = Returns (Some r)) /\
  (sleep_accepts (RE_INIT_SLEEP_TIME (cfg w)) = false ->
   REQUEST_SLEEP (cfg (snd (ws_individual_request env url attempt_id params w)))
   = REQUEST_SLEEP (cfg w) /\
   fst (ws_individual_request env url attempt_id params w) = Returns None).
Proof.
  intros Hpool Hp Hfirst Hnet Hstatus Hremove.
  apply sleep_accepts_error in Hfirst.
  assert (Hchosen : chosen_proxy env (cfg w) = Some p).
  { unfold chosen_proxy. rewrite Hpool. simpl.
    destruct (snd (Nat.divmod (proxy_draw env) 0 0 0)); reflexivity. }
  split.
  { unfold request_sent. simpl. rewrite Hchosen. reflexivity. }
  rewrite attempt_unfold, Hfirst. cbv zeta. rewrite Hnet.
  apply Z.ltb_ge in Hstatus. rewrite Hstatus.
  unfold after_blocked, after_blocked_through_proxy, after_long_sleep.
  change (cfg (world_at_request env url attempt_id params w)) with (cfg w).
  rewrite Hchosen, (truthy_nonempty p Hp), Hremove, Hpool.
  simpl. rewrite String.eqb_refl. simpl.
  unfold sleep_accepts.
  destruct (sleep_error (RE_INIT_SLEEP_TIME (cfg w))); simpl.
  - repeat split; auto; discriminate.
  - repeat split; auto; discriminate.
Qed.

Lemma last_proxy_removed_then_refilled_witness :
  HTTP_PROXY_LIST
    (cfg (snd (ws_individual_request (answering 503 true)
                 "https://www.airbnb.com/s/Paris" 0 None
                 (example_world 3 ["10.0.0.2:3128"]))))
  = two_proxies /\
  REQUEST_SLEEP
    (cfg (snd (ws_individual_request (answering 503 true)
                 "https://www.airbnb.com/s/Paris" 0 None
                 (example_world 3 ["10.0.0.2:3128"]))))
  = 3%float.
Proof.
  destruct (last_proxy_removed_then_refilled (answering 503 true)
              "https://www.airbnb.com/s/Paris" 0 None
              (example_world 3 ["10.0.0.2:3128"]) "10.0.0.2:3128"
              (mkResponse 503 "page"))
    as (_ & _ & Hpool & _ & Hsleep & _).
  - reflexivity.
  - discriminate.
  - reflexivity.
  - reflexivity.
  - simpl; lia.
  - reflexivity.
  - split; [exact Hpool|]. apply Hsleep. reflexivity.
Defined.

(** C5 as stated fails.  With a negative [RE_INIT_SLEEP_TIME] the blocked
    request through the only proxy, drawn for removal, resets the list, but
    line 108 raises, line 109 is skipped: [REQUEST_SLEEP] stays 2.0 and the
    attempt yields [None].  And when the only proxy is the empty string,
    line 85 takes the request for a direct one: the list stays [[""]] and
    does not become [HTTP_PROXY_LIST_COMPLETE]. *)
Lemma refill_without_slow_down :
  (fst (ws_individual_request (answering 503 true)
          "https://www.airbnb.com/s/Paris" 0 None
          (no_pause_world 3 ["10.0.0.2:3128"]))
   = Returns None /\
   HTTP_PROXY_LIST
     (cfg (snd (ws_individual_request (answering 503 true)
                  "https://www.airbnb.com/s/Paris" 0 None
                  (no_pause_world 3 ["10.0.0.2:3128"]))))
   = two_proxies /\
   REQUEST_SLEEP
     (cfg (snd (ws_individual_request (answering 503 true)
                  "https://www.airbnb.com/s/Paris" 0 None
                  (no_pause_world 3 ["10.0.0.2:3128"]))))
   = 2%float /\
   attempts_made
     (effects (snd (ws_individual_request (answering 503 true)
                      "https://www.airbnb.com/s/Paris" 0 None
                      (no_pause_world 3 ["10.0.0.2:3128"]))))
   = 1%nat) /\
  (fst (ws_individual_request (answering 503 true)
          "https://www.airbnb.com/s/Paris" 0 None (example_world 3 [""]))
   = Returns (Some (mkResponse 503 "page")) /\
   HTTP_PROXY_LIST
     (cfg (snd (ws_individual_request (answering 503 true)
                  "https://www.airbnb.com/s/Paris" 0 None
                  (example_world 3 [""]))))
   = [""] /\
   HTTP_PROXY_LIST_COMPLETE
     (cfg (snd (ws_individual_request (answering 503 true)
                  "https://www.airbnb.com/s/Paris" 0 None
                  (example_world 3 [""]))))
   = two_proxies).
Proof. repeat split. Qed.





(** ** Requests without proxies, and exceptions *)

(** C7, as the code has it: when [HTTP_PROXY_LIST] and [USER_AGENT_LIST] are
    both empty, the request of [ws_individual_request] is direct ([proxies]
    is [None]) and has the header [User-Agent: Mozilla/5.0]; it is sent,
    once, whenever [time.sleep] accepts the length of the sleep of line 52,
    and otherwise no request is sent and the attempt yields [None]; the
    empty lists raise nothing: an exception leaves the call only if the
    request itself raised it and it is a cancellation. *)
Theorem direct_request_when_lists_empty (env : attempt_env) (url : string)
    (attempt_id : Z) (params : option dict) (w : world) :
  HTTP_PROXY_LIST (cfg w) = [] ->
  USER_AGENT_LIST (cfg w) = [] ->
  request_sent env url params (cfg w)
  = mkRequest url params (HTTP_TIMEOUT (cfg w)) [("User-Agent", "Mozilla/5.0")]
              [("sticky_locale", "en")] None /\
  (sleep_accepts (first_sleep env (cfg w)) = true ->
   exists later,
     effects (snd (ws_individual_request env url attempt_id params w))
     = (later ++ Get (request_sent env url params (cfg w))
              :: Sleep (first_sleep env (cfg w))
              :: Attempt attempt_id :: effects w)%list /\
     attempts_made later = 0%nat) /\
  (sleep_accepts (first_sleep env (cfg w)) = false ->
   ws_individual_request env url attempt_id params w
   = (Returns None, world_at_entry attempt_id w)) /\
  (forall e,
      fst (ws_individual_request env url attempt_id params w) = Raises e ->
      network env (request_sent env url params (cfg w)) = Fails e /\
      cancellation e = true).
Proof.
  intros Hpool Hagents. split; [|split; [|split]].
  - unfold request_sent, chosen_headers, chosen_proxy.
    rewrite Hpool, Hagents. reflexivity.
  - intros Hfirst. apply sleep_accepts_error in Hfirst.
    rewrite attempt_world, Hfirst.
    destruct (network env _) as [r|e]; [|exists []; split; reflexivity].
    destruct (status_code r <? 300); [exists []; split; reflexivity|].
    destruct (after_blocked_effects env
                (world_at_request env url attempt_id params w)) as [H|H];
      rewrite H.
    + exists []. split; reflexivity.
    + eexists [_]. split; reflexivity.
  - unfold sleep_accepts. intros Hfirst. rewrite attempt_unfold.
    destruct (sleep_error (first_sleep env (cfg w))); [reflexivity|discriminate].
  - intros e. attempt_cases env url attempt_id params w; simpl.
    + discriminate.
    + discriminate.
    + destruct (after_blocked env _) as [[u|e'] w3]; discriminate.
    + destruct (cancellation e0) eqn:Hcancel; [|discriminate].
      intros [= <-]. split; [reflexivity | exact Hcancel].
Qed.

Lemma direct_request_when_lists_empty_witness :
  exists later,
    effects (snd (ws_individual_request (answering 200 false)
                    "https://www.airbnb.com/s/Paris" 0 None bare_world))
    = (later
       ++ Get (request_sent (answering 200 false)
                 "https://www.airbnb.com/s/Paris" None (cfg bare_world))
       :: Sleep (first_sleep (answering 200 false) (cfg bare_world))
       :: Attempt 0 :: effects bare_world)%list /\
    attempts_made later = 0%nat.
Proof.
  destruct (direct_request_when_lists_empty (answering 200 false)
              "https://www.airbnb.com/s/Paris" 0 None bare_world)
    as (_ & Hsent & _).
  - reflexivity.
  - reflexivity.
  - apply Hsent. reflexivity.
Defined.

(** C7 as stated fails: with both lists empty and a negative
    [REQUEST_SLEEP], line 52 raises, the attempt yields [None] and no request
    is issued, though the web site would have answered. *)
Lemma no_request_after_refused_sleep :
  HTTP_PROXY_LIST (cfg bare_no_delay_world) = [] /\
  USER_AGENT_LIST (cfg bare_no_delay_world) = [] /\
  ws_individual_request (answering 200 false)
    "https://www.airbnb.com/s/Paris" 0 None bare_no_delay_world
  = (Returns None, mkWorld (cfg bare_no_delay_world) [Attempt 0]) /\
  attempts_made
    (effects (snd (ws_individual_request (answering 200 false)
                     "https://www.airbnb.com/s/Paris" 0 None
                     bare_no_delay_world)))
  = 0%nat.
Proof. repeat split. Qed.

(** An exception leaves [ws_individual_request] only as a cancellation that
    the request raised. *)
Lemma individual_request_raises (env : attempt_env) (url : string)
    (attempt_id : Z) (params : option dict) (w : world) (e : pyclass) :
  fst (ws_individual_request env url attempt_id params w) = Raises e ->
  network env (request_sent env url params (cfg w)) = Fails e /\
  cancellation e = true.
Proof.
  attempt_cases env url attempt_id params w; simpl.
  - discriminate.
  - discriminate.
  - destruct (after_blocked env _) as [[u|e'] w3]; discriminate.
  - destruct (cancellation e0) eqn:Hcancel; [|discriminate].
    intros [= <-]. split; [reflexivity | exact Hcancel].
Qed.

(** An exception leaves the loop only as the exception one of its attempts
    raised. *)
Lemma loop_raises (env : Z -> attempt_env) (url : string)
    (params : option dict) (ids : list Z) :
  forall (w : world) (e : pyclass),
    fst (repeats_loop env url params ids w) = Raises e ->
    exists attempt_id w0,
      In attempt_id ids /\
      fst (ws_individual_request (env attempt_id) url attempt_id params w0)
      = Raises e.
Proof.
  induction ids as [|attempt_id rest IH]; intros w e; [discriminate|].
  rewrite loop_cons, turn_unfold.
  destruct (ws_individual_request (env attempt_id) url attempt_id params w)
    as [[[r|]|e'] w'] eqn:Hcall.
  - destruct (status_code r =? requests_codes_ok); [discriminate|].
    intros H. destruct (IH w' e H) as (a & w0 & Ha & Hraise).
    exists a, w0. split; [right; exact Ha | exact Hraise].
  - intros H. destruct (IH w' e H) as (a & w0 & Ha & Hraise).
    exists a, w0. split; [right; exact Ha | exact Hraise].
  - destruct (cancellation e') eqn:Hcancel.
    + simpl. intros [= <-]. exists attempt_id, w.
      split; [left; reflexivity | rewrite Hcall; reflexivity].
    + intros H. destruct (IH w' e H) as (a & w0 & Ha & Hraise).
      exists a, w0. split; [right; exact Ha | exact Hraise].
Qed.

Lemma range_In (n a : Z) : In a (range n) -> 0 <= a < n.
Proof.
  unfold range. rewrite in_map_iff. intros (k & <- & Hk).
  apply in_seq in Hk. lia.
Qed.

Lemma range_length (n : Z) : List.length (range n) = Z.to_nat n.
Proof. unfold range. rewrite length_map, length_seq. reflexivity. Qed.

(** C8: whatever exception the body of an attempt raises (the request with a
    connection error, an HTTP error, a timeout, too many redirects, any other
    [requests] exception or any other [Exception], or [time.sleep] with its
    own), [ws_individual_request] returns [None] unless the exception is
    [SystemExit] or [KeyboardInterrupt], which it lets through; it raises
    nothing else; [ws_request_with_repeats] lets through the cancellation of
    the first attempt that raises one, and raises nothing but a cancellation
    that one of its attempts raised. *)
Theorem only_cancellation_propagates :
  (forall (env : attempt_env) url attempt_id params (w : world) (e : pyclass),
      fst (individual_request_body env url params (world_at_entry attempt_id w))
      = Raises e ->
      fst (ws_individual_request env url attempt_id params w)
      = if cancellation e then Raises e else Returns None) /\
  (forall (env : attempt_env) url attempt_id params (w : world) (e : pyclass),
      sleep_accepts (first_sleep env (cfg w)) = true ->
      network env (request_sent env url params (cfg w)) = Fails e ->
      fst (individual_request_body env url params (world_at_entry attempt_id w))
      = Raises e) /\
  (forall (env : attempt_env) url attempt_id params (w : world) (e : pyclass),
      fst (ws_individual_request env url attempt_id params w) = Raises e ->
      e = SystemExit \/ e = KeyboardInterrupt) /\
  (forall (env : Z -> attempt_env) url params (w : world) (k : nat)
          (e : pyclass),
      Z.of_nat k < MAX_CONNECTION_ATTEMPTS (cfg w) ->
      (forall i, (i < k)%nat -> goes_on (attempt_outcome env url params w i)) ->
      attempt_outcome env url params w k = Raises e ->
      ws_request_with_repeats env url params w
      = (Raises e, world_before env url params w (S k))) /\
  (forall (env : Z -> attempt_env) url params (w : world) (e : pyclass),
      fst (ws_request_with_repeats env url params w) = Raises e ->
      (e = SystemExit \/ e = KeyboardInterrupt) /\
      exists attempt_id w0,
        0 <= attempt_id < MAX_CONNECTION_ATTEMPTS (cfg w) /\
        fst (ws_individual_request (env attempt_id) url attempt_id params w0)
        = Raises e).
Proof.
  split; [|split; [|split; [|split]]].
  - intros env url attempt_id params w e Hbody.
    unfold ws_individual_request.
    change ((emit (Attempt attempt_id) ;;
             try_except (individual_request_body env url params)
               individual_request_handlers) w)
      with (try_except (individual_request_body env url params)
              individual_request_handlers (world_at_entry attempt_id w)).
    unfold try_except.
    destruct (individual_request_body env url params
                (world_at_entry attempt_id w)) as [o w'].
    simpl in Hbody. rewrite Hbody, handlers_spec.
    destruct (cancellation e); reflexivity.
  - intros env url attempt_id params w e Hfirst Hnet.
    apply sleep_accepts_error in Hfirst.
    rewrite body_unfold.
    change (cfg (world_at_entry attempt_id w)) with (cfg w).
    rewrite Hfirst. cbv zeta. rewrite Hnet. reflexivity.
  - intros env url attempt_id params w e Hraise.
    apply cancellation_cases.
    apply (individual_request_raises env url attempt_id params w e Hraise).
  - intros env url params w k e Hk Hbefore Hraise.
    assert (Hcancel : cancellation e = true)
      by apply (individual_request_raises _ _ _ _ _ _ Hraise).
    rewrite (loop_reaches env url params w _ k eq_refl Hk Hbefore).
    rewrite loop_cons, turn_unfold. simpl world_before.
    unfold attempt_outcome in Hraise.
    destruct (ws_individual_request _ _ _ _ (world_before env url params w k))
      as [o w'].
    simpl in Hraise |- *. rewrite Hraise, Hcancel. reflexivity.
  - intros env url params w e Hraise.
    unfold ws_request_with_repeats, bind, read_config in Hraise.
    destruct (loop_raises _ _ _ _ _ _ Hraise) as (a & w0 & Ha & Hcall).
    split.
    + apply cancellation_cases.
      apply (individual_request_raises _ _ _ _ _ _ Hcall).
    + exists a, w0. split; [apply range_In; exact Ha | exact Hcall].
Qed.

Lemma only_cancellation_propagates_witness :
  fst (ws_individual_request (failing Timeout) "https://www.airbnb.com/s/Paris"
         0 None (example_world 3 two_proxies))
  = Returns None /\
  ws_request_with_repeats interrupted "https://www.airbnb.com/s/Paris" None
    (example_world 3 two_proxies)
  = (Raises KeyboardInterrupt,
     world_before interrupted "https://www.airbnb.com/s/Paris" None
       (example_world 3 two_proxies) 2).
Proof.
  destruct only_cancellation_propagates as (Hcaught & _ & _ & Hcall & _).
  split.
  - apply (Hcaught (failing Timeout) "https://www.airbnb.com/s/Paris" 0 None
             (example_world 3 two_proxies) Timeout); reflexivity.
  - apply (Hcall interrupted "https://www.airbnb.com/s/Paris" None
             (example_world 3 two_proxies) 1%nat KeyboardInterrupt).
    + simpl; lia.
    + intros i Hi. left. destruct i as [|i]; [reflexivity | lia].
    + reflexivity.
Defined.

(** C9, as the code has it: when the proxy list is empty, so that the
    request goes out directly, the request is sent and the answer has a
    status of 300 or more: if [time.sleep] accepts [RE_INIT_SLEEP_TIME],
    [ws_individual_request] sleeps that long after the request, sets
    [REQUEST_SLEEP] to its old value plus 1.0, and returns that response;
    if not, it does not sleep, leaves [REQUEST_SLEEP] alone and yields
    [None]. *)
Theorem direct_block_sleeps_and_slows (env : attempt_env) (url : string)
    (attempt_id : Z) (params : option dict) (w : world) (r : response) :
  HTTP_PROXY_LIST (cfg w) = [] ->
  sleep_accepts (first_sleep env (cfg w)) = true ->
  network env (request_sent env url params (cfg w)) = Responds r ->
  300 <= status_code r ->
  req_proxies (request_sent env url params (cfg w)) = None /\
  (sleep_accepts (RE_INIT_SLEEP_TIME (cfg w)) = true ->
   fst (ws_individual_request env url attempt_id params w) = Returns (Some r) /\
   effects (snd (ws_individual_request env url attempt_id params w))
   = Sleep (RE_INIT_SLEEP_TIME (cfg w))
     :: Get (request_sent env url params (cfg w))
     :: Sleep (REQUEST_SLEEP (cfg w) * random_random env)%float
     :: Attempt attempt_id
     :: effects w /\
   REQUEST_SLEEP (cfg (snd (ws_individual_request env url attempt_id params w)))
   = (REQUEST_SLEEP (cfg w) + 1)%float /\
   HTTP_PROXY_LIST (cfg (snd (ws_individual_request env url attempt_id params w)))
   = []) /\
  (sleep_accepts (RE_INIT_SLEEP_TIME (cfg w)) = false ->
   ws_individual_request env url attempt_id params w
   = (Returns None, world_at_request env url attempt_id params w)).
Proof.
  intros Hpool Hfirst Hnet Hstatus.
  apply sleep_accepts_error in Hfirst.
  assert (Hchosen : chosen_proxy env (cfg w) = None)
    by (unfold chosen_proxy; rewrite Hpool; reflexivity).
  split.
  { unfold request_sent. simpl. rewrite Hchosen. reflexivity. }
  rewrite attempt_unfold, Hfirst. cbv zeta. rewrite Hnet.
  apply Z.ltb_ge in Hstatus. rewrite Hstatus.
  unfold after_blocked, after_long_sleep.
  change (cfg (world_at_request env url attempt_id params w)) with (cfg w).
  rewrite Hchosen. unfold sleep_accepts.
  destruct (sleep_error (RE_INIT_SLEEP_TIME (cfg w))); simpl.
  - split; [discriminate | reflexivity].
  - split; [|discriminate]. intros _. repeat split. exact Hpool.
Qed.

Lemma direct_block_sleeps_and_slows_witness :
  fst (ws_individual_request (answering 429 true)
         "https://www.airbnb.com/s/Paris" 0 None (example_world 3 []))
  = Returns (Some (mkResponse 429 "page")) /\
  REQUEST_SLEEP
    (cfg (snd (ws_individual_request (answering 429 true)
                 "https://www.airbnb.com/s/Paris" 0 None (example_world 3 []))))
  = 3%float.
Proof.
  destruct (direct_block_sleeps_and_slows (answering 429 true)
              "https://www.airbnb.com/s/Paris" 0 None (example_world 3 [])
              (mkResponse 429 "page"))
    as (_ & Haccepted & _).
  - reflexivity.
  - reflexivity.
  - reflexivity.
  - simpl; lia.
  - destruct (Haccepted eq_refl) as (Hret & _ & Hsleep & _).
    split; [exact Hret | exact Hsleep].
Defined.

(** C9 as stated fails: with no proxy and a negative [RE_INIT_SLEEP_TIME],
    the request is answered with status 429, line 116 raises, lines 117 and
    118 are skipped: nothing is slept, [REQUEST_SLEEP] stays 2.0 and the
    attempt yields [None], not the response. *)
Lemma direct_block_with_refused_sleep :
  network (answering 429 true)
    (request_sent (answering 429 true) "https://www.airbnb.com/s/Paris" None
       (cfg (no_pause_world 3 [])))
  = Responds (mkResponse 429 "page") /\
  ws_individual_request (answering 429 true) "https://www.airbnb.com/s/Paris"
    0 None (no_pause_world 3 [])
  = (Returns None,
     world_at_request (answering 429 true) "https://www.airbnb.com/s/Paris"
       0 None (no_pause_world 3 [])) /\
  REQUEST_SLEEP
    (cfg (snd (ws_individual_request (answering 429 true)
                 "https://www.airbnb.com/s/Paris" 0 None
                 (no_pause_world 3 []))))
  = 2%float.
Proof. repeat split. Qed.

(** ** Further properties: what an attempt changes *)

Lemma same_settings_refl (c : config) : same_settings c c.
Proof. repeat split. Qed.

Lemma same_settings_trans (c1 c2 c3 : config) :
  same_settings c1 c2 -> same_settings c2 c3 -> same_settings c1 c3.
Proof.
  unfold same_settings.
  intros (a1 & a2 & a3 & a4 & a5) (b1 & b2 & b3 & b4 & b5).
  repeat split; congruence.
Qed.

Lemma after_blocked_settings (env : attempt_env) (w : world) :
  same_settings (cfg w) (cfg (snd (after_blocked env w))).
Proof. blocked_cases env w; repeat split. Qed.

Lemma attempt_settings (env : attempt_env) (url : string) (attempt_id : Z)
    (params : option dict) (w : world) :
  same_settings (cfg w)
    (cfg (snd (ws_individual_request env url attempt_id params w))).
Proof.
  rewrite attempt_world.
  destruct (sleep_error _); [repeat split|].
  destruct (network env _) as [r|e]; [|repeat split].
  destruct (status_code r <? 300); [repeat split|].
  apply (after_blocked_settings env
           (world_at_request env url attempt_id params w)).
Qed.

Lemma after_attempts_settings (url : string) (params : option dict)
    (script : list (attempt_env * Z)) :
  forall w : world,
    same_settings (cfg w) (cfg (after_attempts script url params w)).
Proof.
  induction script as [|[env attempt_id] script IH]; intros w; simpl.
  - apply same_settings_refl.
  - eapply same_settings_trans; [apply attempt_settings | apply IH].
Qed.

(** X1: neither function assigns [MAX_CONNECTION_ATTEMPTS], [HTTP_TIMEOUT],
    [USER_AGENT_LIST], [HTTP_PROXY_LIST_COMPLETE] or [RE_INIT_SLEEP_TIME]:
    they are the same after any run of attempts and after any call of
    [ws_request_with_repeats], whatever the network answers. *)
Theorem settings_never_assigned (url : string) (params : option dict)
    (w : world) :
  (forall script : list (attempt_env * Z),
      same_settings (cfg w) (cfg (after_attempts script url params w))) /\
  (forall env : Z -> attempt_env,
      same_settings (cfg w)
        (cfg (snd (ws_request_with_repeats env url params w)))).
Proof.
  split.
  - intros script. apply after_attempts_settings.
  - intros env. unfold ws_request_with_repeats, bind, read_config.
    destruct (loop_is_a_run env url params
                (range (MAX_CONNECTION_ATTEMPTS (cfg w))) w) as [script Hrun].
    rewrite Hrun. apply after_attempts_settings.
Qed.

(** X2: in one attempt the long sleep and the slow-down go together.
    Either [time.sleep] refuses the length of the first sleep and the attempt
    does nothing; or the attempt sleeps, sends its request, and then either
    does not sleep again and leaves [REQUEST_SLEEP] alone, or sleeps
    [RE_INIT_SLEEP_TIME] and sets [REQUEST_SLEEP] to its old value plus
    1.0. *)
Theorem long_sleep_iff_slow_down (env : attempt_env) (url : string)
    (attempt_id : Z) (params : option dict) (w : world) :
  (sleep_accepts (first_sleep env (cfg w)) = false /\
   snd (ws_individual_request env url attempt_id params w)
   = world_at_entry attempt_id w)
  \/
  (sleep_accepts (first_sleep env (cfg w)) = true /\
   REQUEST_SLEEP (cfg (snd (ws_individual_request env url attempt_id params w)))
   = REQUEST_SLEEP (cfg w) /\
   effects (snd (ws_individual_request env url attempt_id params w))
   = Get (request_sent env url params (cfg w))
     :: Sleep (REQUEST_SLEEP (cfg w) * random_random env)%float
     :: Attempt attempt_id
     :: effects w)
  \/
  (sleep_accepts (first_sleep env (cfg w)) = true /\
   sleep_accepts (RE_INIT_SLEEP_TIME (cfg w)) = true /\
   REQUEST_SLEEP (cfg (snd (ws_individual_request env url attempt_id params w)))
   = (REQUEST_SLEEP (cfg w) + 1)%float /\
   effects (snd (ws_individual_request env url attempt_id params w))
   = Sleep (RE_INIT_SLEEP_TIME (cfg w))
     :: Get (request_sent env url params (cfg w))
     :: Sleep (REQUEST_SLEEP (cfg w) * random_random env)%float
     :: Attempt attempt_id
     :: effects w).
Proof.
  rewrite attempt_world. unfold sleep_accepts.
  destruct (sleep_error (first_sleep env (cfg w)));
    [left; split; reflexivity|].
  right.
  destruct (network env _) as [r|e]; [|left; repeat split].
  destruct (status_code r <? 300); [left; repeat split|].
  unfold after_blocked, after_blocked_through_proxy, after_long_sleep.
  change (cfg (world_at_request env url attempt_id params w)) with (cfg w).
  destruct (chosen_proxy env (cfg w)) as [p|].
  - destruct (truthy p).
    + destruct (remove_draw env); [|left; repeat split].
      destruct (list_remove p (HTTP_PROXY_LIST (cfg w))) as [[|y l]|];
        [|left; repeat split|left; repeat split].
      simpl. destruct (sleep_error (RE_INIT_SLEEP_TIME (cfg w)));
        [left; repeat split | right; repeat split].
    + destruct (sleep_error (RE_INIT_SLEEP_TIME (cfg w)));
        [left; repeat split | right; repeat split].
  - destruct (sleep_error (RE_INIT_SLEEP_TIME (cfg w)));
      [left; repeat split | right; repeat split].
Qed.

(** X3: an attempt whose request fails, or is answered with a status below
    300, leaves [config] exactly as it was. *)
Theorem unblocked_attempt_keeps_config (env : attempt_env) (url : string)
    (attempt_id : Z) (params : option dict) (w : world) :
  (forall r, network env (request_sent env url params (cfg w)) = Responds r ->
             status_code r < 300) ->
  cfg (snd (ws_individual_request env url attempt_id params w)) = cfg w.
Proof.
  intros Hok. rewrite attempt_world.
  destruct (sleep_error _); [reflexivity|].
  destruct (network env _) as [r|e]; [|reflexivity].
  specialize (Hok r eq_refl). apply Z.ltb_lt in Hok. rewrite Hok. reflexivity.
Qed.

Lemma unblocked_attempt_keeps_config_witness :
  cfg (snd (ws_individual_request (answering 204 true)
              "https://www.airbnb.com/s/Paris" 0 None
              (example_world 3 two_proxies)))
  = example_config 3 two_proxies.
Proof.
  apply (unblocked_attempt_keeps_config (answering 204 true)
           "https://www.airbnb.com/s/Paris" 0 None (example_world 3 two_proxies)).
  intros r Hr. simpl in Hr. injection Hr as <-. simpl. lia.
Defined.

(** X13: when [time.sleep] refuses the length of the first sleep (a negative
    [REQUEST_SLEEP], for one), the attempt sends no request, changes nothing
    in [config] and yields [None], whatever the web site would answer. *)
Theorem refused_first_sleep_skips_the_request (env : attempt_env)
    (url : string) (attempt_id : Z) (params : option dict) (w : world) :
  sleep_accepts (first_sleep env (cfg w)) = false ->
  fst (ws_individual_request env url attempt_id params w) = Returns None /\
  cfg (snd (ws_individual_request env url attempt_id params w)) = cfg w /\
  effects (snd (ws_individual_request env url attempt_id params w))
  = Attempt attempt_id :: effects w.
Proof.
  unfold sleep_accepts. intros Hfirst. rewrite attempt_unfold.
  destruct (sleep_error (first_sleep env (cfg w))); [|discriminate].
  repeat split.
Qed.

Lemma refused_first_sleep_skips_the_request_witness :
  fst (ws_individual_request (answering 200 false)
         "https://www.airbnb.com/s/Paris" 0 None
         (no_delay_world 3 two_proxies))
  = Returns None /\
  effects (snd (ws_individual_request (answering 200 false)
                  "https://www.airbnb.com/s/Paris" 0 None
                  (no_delay_world 3 two_proxies)))
  = [Attempt 0].
Proof.
  destruct (refused_first_sleep_skips_the_request (answering 200 false)
              "https://www.airbnb.com/s/Paris" 0 None
              (no_delay_world 3 two_proxies)) as (Hret & _ & Heff).
  - reflexivity.
  - split; [exact Hret | exact Heff].
Defined.

(** ** Further properties: what a call returns and how far it goes *)

(** A response the loop returns has status 200 and is the answer of the
    network to the request of one of its attempts. *)
Lemma loop_returns (env : Z -> attempt_env) (url : string)
    (params : option dict) (ids : list Z) :
  forall (w : world) (r : response),
    fst (repeats_loop env url params ids w) = Returns (Some r) ->
    status_code r = requests_codes_ok /\
    exists attempt_id c,
      In attempt_id ids /\
      network (env attempt_id) (request_sent (env attempt_id) url params c)
      = Responds r.
Proof.
  induction ids as [|attempt_id rest IH]; intros w r; [discriminate|].
  rewrite loop_cons, turn_unfold.
  pose proof (response_takes_a_request (env attempt_id) url attempt_id
                params w) as Hcall.
  destruct (ws_individual_request (env attempt_id) url attempt_id params w)
    as [[[r'|]|e] w'].
  - destruct (status_code r' =? requests_codes_ok) eqn:Hok.
    + simpl. intros H. injection H as <-. split; [apply Z.eqb_eq; exact Hok|].
      exists attempt_id, (cfg w). split; [left; reflexivity|].
      apply (Hcall r' eq_refl).
    + intros H. destruct (IH w' r H) as (Hstatus & a & c & Ha & Hnet).
      split; [exact Hstatus|]. exists a, c. split; [right; exact Ha | exact Hnet].
  - intros H. destruct (IH w' r H) as (Hstatus & a & c & Ha & Hnet).
    split; [exact Hstatus|]. exists a, c. split; [right; exact Ha | exact Hnet].
  - destruct (cancellation e); [discriminate|].
    intros H. destruct (IH w' r H) as (Hstatus & a & c & Ha & Hnet).
    split; [exact Hstatus|]. exists a, c. split; [right; exact Ha | exact Hnet].
Qed.

(** X4: a response that [ws_request_with_repeats] returns has status 200,
    and it is the answer the web site gave to the request of one of the
    attempts [0 .. MAX_CONNECTION_ATTEMPTS - 1]. *)
Theorem returned_response_is_an_ok_answer (env : Z -> attempt_env)
    (url : string) (params : option dict) (w : world) (r : response) :
  fst (ws_request_with_repeats env url params w) = Returns (Some r) ->
  status_code r = 200 /\
  exists attempt_id c,
    0 <= attempt_id < MAX_CONNECTION_ATTEMPTS (cfg w) /\
    network (env attempt_id) (request_sent (env attempt_id) url params c)
    = Responds r.
Proof.
  unfold ws_request_with_repeats, bind, read_config. intros Hret.
  destruct (loop_returns env url params _ w r Hret)
    as (Hstatus & a & c & Ha & Hnet).
  split; [exact Hstatus|]. exists a, c.
  split; [apply range_In; exact Ha | exact Hnet].
Qed.

Lemma returned_response_is_an_ok_answer_witness :
  status_code (mkResponse 200 "page") = 200 /\
  exists attempt_id c,
    0 <= attempt_id
    < MAX_CONNECTION_ATTEMPTS (cfg (example_world 3 two_proxies)) /\
    network (third_time_lucky attempt_id)
      (request_sent (third_time_lucky attempt_id)
         "https://www.airbnb.com/s/Paris" None c)
    = Responds (mkResponse 200 "page").
Proof.
  apply (returned_response_is_an_ok_answer third_time_lucky
           "https://www.airbnb.com/s/Paris" None (example_world 3 two_proxies)
           (mkResponse 200 "page")).
  reflexivity.
Defined.

Lemma loop_attempts_bound (env : Z -> attempt_env) (url : string)
    (params : option dict) (ids : list Z) :
  forall w : world,
    (attempts_made (effects w)
     <= attempts_made (effects (snd (repeats_loop env url params ids w)))
     <= attempts_made (effects w) + List.length ids)%nat.
Proof.
  induction ids as [|attempt_id rest IH]; intros w.
  - simpl. lia.
  - rewrite loop_cons, turn_unfold.
    pose proof (at_most_one_request (env attempt_id) url attempt_id params w)
      as Hone.
    destruct (ws_individual_request (env attempt_id) url attempt_id params w)
      as [[[r|]|e] w']; simpl in Hone.
    + destruct (status_code r =? requests_codes_ok).
      * simpl. lia.
      * specialize (IH w'). simpl List.length. lia.
    + specialize (IH w'). simpl List.length. lia.
    + destruct (cancellation e).
      * simpl. lia.
      * specialize (IH w'). simpl List.length. lia.
Qed.

(** X5: a call of [ws_request_with_repeats] never sends more than
    [MAX_CONNECTION_ATTEMPTS] requests, whatever happens. *)
Theorem at_most_max_attempts (env : Z -> attempt_env) (url : string)
    (params : option dict) (w : world) :
  (attempts_made (effects w)
   <= attempts_made (effects (snd (ws_request_with_repeats env url params w)))
   <= attempts_made (effects w)
      + Z.to_nat (MAX_CONNECTION_ATTEMPTS (cfg w)))%nat.
Proof.
  unfold ws_request_with_repeats, bind, read_config.
  rewrite <- (range_length (MAX_CONNECTION_ATTEMPTS (cfg w))).
  apply loop_attempts_bound.
Qed.

(** X6: when after every one of the [N] attempts the loop goes on (the
    attempt yields [None] or a response whose status is not 200, a blocked
    last attempt included), [ws_request_with_repeats] returns [None] after
    exactly [N] calls of [ws_individual_request]: the responses it got are
    dropped. *)
Theorem no_ok_answer_gives_None (env : Z -> attempt_env) (url : string)
    (params : option dict) (w : world) (N : Z) :
  MAX_CONNECTION_ATTEMPTS (cfg w) = N ->
  (forall k, (k < Z.to_nat N)%nat ->
             goes_on (attempt_outcome env url params w k)) ->
  ws_request_with_repeats env url params w
  = (Returns None, world_before env url params w (Z.to_nat N)) /\
  calls_made (effects (world_before env url params w (Z.to_nat N)))
  = (calls_made (effects w) + Z.to_nat N)%nat.
Proof.
  intros Hmax Hgo. split; [|apply calls_before].
  apply loop_exhausted; assumption.
Qed.

Lemma no_ok_answer_gives_None_witness :
  fst (ws_request_with_repeats never_ok "https://www.airbnb.com/s/Paris" None
         (example_world 3 two_proxies))
  = Returns None /\
  calls_made
    (effects (snd (ws_request_with_repeats never_ok
                     "https://www.airbnb.com/s/Paris" None
                     (example_world 3 two_proxies))))
  = 3%nat.
Proof.
  destruct (no_ok_answer_gives_None never_ok "https://www.airbnb.com/s/Paris"
              None (example_world 3 two_proxies) 3) as [Hrun Hcount].
  - reflexivity.
  - intros k Hk.
    destruct k as [|[|[|k]]]; [left; reflexivity | | | simpl in Hk; lia].
    + right. exists (mkResponse 404 "page"). split; [reflexivity | discriminate].
    + right. exists (mkResponse 404 "page"). split; [reflexivity | discriminate].
  - rewrite Hrun. split; [reflexivity | exact Hcount].
Defined.

(** X7: when the request of attempt [k] is sent and raises [SystemExit] or
    [KeyboardInterrupt], after attempts [0 .. k-1] that let the loop go on,
    [ws_request_with_repeats] raises that exception at once: the world is
    the one in which the request was sent, with no sleep after it and no
    further attempt. *)
Theorem cancellation_stops_the_call (env : Z -> attempt_env) (url : string)
    (params : option dict) (w : world) (N : Z) (k : nat) (e : pyclass) :
  MAX_CONNECTION_ATTEMPTS (cfg w) = N ->
  Z.of_nat k < N ->
  (forall i, (i < k)%nat -> goes_on (attempt_outcome env url params w i)) ->
  sleep_accepts
    (first_sleep (env (Z.of_nat k)) (cfg (world_before env url params w k)))
  = true ->
  network (env (Z.of_nat k))
    (request_sent (env (Z.of_nat k)) url params
       (cfg (world_before env url params w k))) = Fails e ->
  cancellation e = true ->
  ws_request_with_repeats env url params w
  = (Raises e,
     world_at_request (env (Z.of_nat k)) url (Z.of_nat k) params
       (world_before env url params w k)) /\
  calls_made
    (effects (world_at_request (env (Z.of_nat k)) url (Z.of_nat k) params
                (world_before env url params w k)))
  = (calls_made (effects w) + (k + 1))%nat.
Proof.
  intros Hmax Hk Hbefore Hfirst Hnet Hcancel.
  apply sleep_accepts_error in Hfirst. split.
  - rewrite (loop_reaches env url params w N k Hmax Hk Hbefore).
    rewrite loop_cons, turn_unfold, attempt_unfold, Hfirst. cbv zeta.
    rewrite Hnet, Hcancel. cbv iota beta. rewrite Hcancel. reflexivity.
  - simpl. rewrite calls_before. lia.
Qed.

Lemma cancellation_stops_the_call_witness :
  fst (ws_request_with_repeats interrupted "https://www.airbnb.com/s/Paris"
         None (example_world 3 two_proxies))
  = Raises KeyboardInterrupt /\
  calls_made
    (effects (snd (ws_request_with_repeats interrupted
                     "https://www.airbnb.com/s/Paris" None
                     (example_world 3 two_proxies))))
  = 2%nat.
Proof.
  destruct (cancellation_stops_the_call interrupted
              "https://www.airbnb.com/s/Paris" None
              (example_world 3 two_proxies) 3 1 KeyboardInterrupt)
    as [Hrun Hcount].
  - reflexivity.
  - lia.
  - intros i Hi. left. destruct i as [|i]; [reflexivity | lia].
  - reflexivity.
  - reflexivity.
  - reflexivity.
  - rewrite Hrun. split; [reflexivity | exact Hcount].
Defined.

(** ** Further properties: the proxy list in use *)

Lemma after_blocked_nonempty (env : attempt_env) (w : world) :
  HTTP_PROXY_LIST (cfg w) <> [] ->
  HTTP_PROXY_LIST_COMPLETE (cfg w) <> [] ->
  HTTP_PROXY_LIST (cfg (snd (after_blocked env w))) <> [].
Proof.
  intros Hpool Hcomplete.
  blocked_cases env w; try assumption. discriminate.
Qed.

Lemma attempt_nonempty (env : attempt_env) (url : string) (attempt_id : Z)
    (params : option dict) (w : world) :
  HTTP_PROXY_LIST (cfg w) <> [] ->
  HTTP_PROXY_LIST_COMPLETE (cfg w) <> [] ->
  HTTP_PROXY_LIST (cfg (snd (ws_individual_request env url attempt_id params w)))
  <> [].
Proof.
  intros Hpool Hcomplete. rewrite attempt_world.
  destruct (sleep_error _); [exact Hpool|].
  destruct (network env _) as [r|e]; [|exact Hpool].
  destruct (status_code r <? 300); [exact Hpool|].
  apply (after_blocked_nonempty env
           (world_at_request env url attempt_id params w)); assumption.
Qed.

Lemma after_attempts_nonempty (url : string) (params : option dict)
    (script : list (attempt_env * Z)) :
  forall w : world,
    HTTP_PROXY_LIST (cfg w) <> [] ->
    HTTP_PROXY_LIST_COMPLETE (cfg w) <> [] ->
    HTTP_PROXY_LIST (cfg (after_attempts script url params w)) <> [].
Proof.
  induction script as [|[env attempt_id] script IH]; intros w Hpool Hcomplete;
    simpl; [exact Hpool|].
  apply IH.
  - apply attempt_nonempty; assumption.
  - destruct (attempt_pool env url attempt_id params w) as [-> _].
    exact Hcomplete.
Qed.

(** X8: a session that has proxies keeps having proxies: when
    [HTTP_PROXY_LIST] and [HTTP_PROXY_LIST_COMPLETE] are not empty,
    [HTTP_PROXY_LIST] is not empty after any run of attempts nor after any
    call of [ws_request_with_repeats], and the next request goes through a
    proxy again. *)
Theorem proxies_never_run_out (url : string) (params : option dict)
    (w : world) (script : list (attempt_env * Z)) :
  HTTP_PROXY_LIST (cfg w) <> [] ->
  HTTP_PROXY_LIST_COMPLETE (cfg w) <> [] ->
  HTTP_PROXY_LIST (cfg (after_attempts script url params w)) <> [] /\
  (forall env : attempt_env,
      req_proxies
        (request_sent env url params (cfg (after_attempts script url params w)))
      <> None) /\
  (forall env : Z -> attempt_env,
      HTTP_PROXY_LIST (cfg (snd (ws_request_with_repeats env url params w)))
      <> []).
Proof.
  intros Hpool Hcomplete.
  pose proof (after_attempts_nonempty url params script w Hpool Hcomplete)
    as Hafter.
  split; [exact Hafter|]. split.
  - intros env. unfold request_sent, chosen_proxy. simpl.
    destruct (HTTP_PROXY_LIST (cfg (after_attempts script url params w)));
      [congruence | discriminate].
  - intros env. unfold ws_request_with_repeats, bind, read_config.
    destruct (loop_is_a_run env url params
                (range (MAX_CONNECTION_ATTEMPTS (cfg w))) w) as [script' Hrun].
    rewrite Hrun. apply after_attempts_nonempty; assumption.
Qed.

Lemma proxies_never_run_out_witness :
  HTTP_PROXY_LIST
    (cfg (after_attempts two_removals "https://www.airbnb.com/s/Paris" None
            (example_world 3 two_proxies)))
  = two_proxies /\
  HTTP_PROXY_LIST
    (cfg (after_attempts two_removals "https://www.airbnb.com/s/Paris" None
            (example_world 3 two_proxies)))
  <> [].
Proof.
  split; [reflexivity|].
  apply (proxies_never_run_out "https://www.airbnb.com/s/Paris" None
           (example_world 3 two_proxies) two_removals).
  - discriminate.
  - discriminate.
Defined.

(** X9: when the request through the proxy [p], whose name is not empty, is
    sent and answered with a status of 300 or more, the draw of line 91 says
    "remove", and other proxies are left, the attempt removes the first
    occurrence of [p] from [HTTP_PROXY_LIST] and does nothing else: no long
    sleep, [REQUEST_SLEEP] unchanged, and the response is returned. *)
Theorem blocked_proxy_removed (env : attempt_env) (url : string)
    (attempt_id : Z) (params : option dict) (w : world) (p q : string)
    (l : list string) (r : response) :
  chosen_proxy env (cfg w) = Some p ->
  p <> "" ->
  sleep_accepts (first_sleep env (cfg w)) = true ->
  network env (request_sent env url params (cfg w)) = Responds r ->
  300 <= status_code r ->
  remove_draw env = true ->
  list_remove p (HTTP_PROXY_LIST (cfg w)) = Some (q :: l) ->
  ws_individual_request env url attempt_id params w
  = (Returns (Some r),
     mkWorld (set_HTTP_PROXY_LIST (q :: l) (cfg w))
             (effects (world_at_request env url attempt_id params w))) /\
  S (List.length (q :: l)) = List.length (HTTP_PROXY_LIST (cfg w)).
Proof.
  intros Hchosen Hp Hfirst Hnet Hstatus Hremove Hrm.
  apply sleep_accepts_error in Hfirst. split.
  - rewrite attempt_unfold, Hfirst. cbv zeta. rewrite Hnet.
    apply Z.ltb_ge in Hstatus. rewrite Hstatus.
    unfold after_blocked, after_blocked_through_proxy.
    change (cfg (world_at_request env url attempt_id params w)) with (cfg w).
    rewrite Hchosen, (truthy_nonempty p Hp), Hremove, Hrm. reflexivity.
  - symmetry. apply (list_remove_length p). exact Hrm.
Qed.

Lemma blocked_proxy_removed_witness :
  ws_individual_request (answering 503 true) "https://www.airbnb.com/s/Paris"
    0 None (example_world 3 two_proxies)
  = (Returns (Some (mkResponse 503 "page")),
     mkWorld (example_config 3 ["10.0.0.1:3128"])
             (effects (world_at_request (answering 503 true)
                         "https://www.airbnb.com/s/Paris" 0 None
                         (example_world 3 two_proxies)))).
Proof.
  apply (blocked_proxy_removed (answering 503 true)
           "https://www.airbnb.com/s/Paris" 0 None
           (example_world 3 two_proxies) "10.0.0.2:3128" "10.0.0.1:3128" []
           (mkResponse 503 "page")).
  - reflexivity.
  - discriminate.
  - reflexivity.
  - reflexivity.
  - simpl; lia.
  - reflexivity.
  - reflexivity.
Defined.



(** ** Further properties: the requests that go out *)

(** X11: when both lists are non-empty and [time.sleep] accepts the length
    of the first sleep, the request of an attempt is sent; it carries a user
    agent taken from [USER_AGENT_LIST] and goes, for http and https alike,
    through one proxy taken from [HTTP_PROXY_LIST]. *)
Theorem identity_drawn_from_lists (env : attempt_env) (url : string)
    (attempt_id : Z) (params : option dict) (w : world) :
  USER_AGENT_LIST (cfg w) <> [] ->
  HTTP_PROXY_LIST (cfg w) <> [] ->
  sleep_accepts (first_sleep env (cfg w)) = true ->
  exists user_agent p,
    In user_agent (USER_AGENT_LIST (cfg w)) /\
    In p (HTTP_PROXY_LIST (cfg w)) /\
    In (Get (mkRequest url params (HTTP_TIMEOUT (cfg w))
                       [("User-Agent", user_agent)] [("sticky_locale", "en")]
                       (Some [("http", ("http://" ++ p)%string);
                              ("https", ("https://" ++ p)%string)])))
       (effects (snd (ws_individual_request env url attempt_id params w))).
Proof.
  intros Hagents Hpool Hfirst.
  apply sleep_accepts_error in Hfirst.
  assert (Hin : In (Get (request_sent env url params (cfg w)))
                   (effects (snd (ws_individual_request env url attempt_id
                                    params w)))).
  { rewrite attempt_world, Hfirst.
    destruct (network env _) as [r|e]; [|left; reflexivity].
    destruct (status_code r <? 300); [left; reflexivity|].
    destruct (after_blocked_effects env
                (world_at_request env url attempt_id params w)) as [H|H];
      rewrite H; [left | right; left]; reflexivity. }
  destruct (USER_AGENT_LIST (cfg w)) as [|ua uas] eqn:Eagents; [congruence|].
  destruct (HTTP_PROXY_LIST (cfg w)) as [|px pxs] eqn:Epool; [congruence|].
  exists (List.nth (Nat.modulo (user_agent_draw env) (List.length (ua :: uas)))
            (ua :: uas) "").
  exists (List.nth (Nat.modulo (proxy_draw env) (List.length (px :: pxs)))
            (px :: pxs) "").
  split; [apply nth_In; apply Nat.mod_upper_bound; discriminate|].
  split; [apply nth_In; apply Nat.mod_upper_bound; discriminate|].
  assert (Hsent : request_sent env url params (cfg w)
                  = mkRequest url params (HTTP_TIMEOUT (cfg w))
                      [("User-Agent",
                        List.nth (Nat.modulo (user_agent_draw env)
                                    (List.length (ua :: uas))) (ua :: uas) "")]
                      [("sticky_locale", "en")]
                      (Some (proxies_through
                               (List.nth (Nat.modulo (proxy_draw env)
                                            (List.length (px :: pxs)))
                                  (px :: pxs) "")))).
  { unfold request_sent, chosen_headers, chosen_proxy.
    rewrite Eagents, Epool. reflexivity. }
  rewrite Hsent in Hin. exact Hin.
Qed.

Lemma identity_drawn_from_lists_witness :
  exists user_agent p,
    In user_agent ["agent-a"; "agent-b"] /\
    In p two_proxies /\
    In (Get (mkRequest "https://www.airbnb.com/s/Paris" None 10%float
                       [("User-Agent", user_agent)] [("sticky_locale", "en")]
                       (Some [("http", ("http://" ++ p)%string);
                              ("https", ("https://" ++ p)%string)])))
       (effects (snd (ws_individual_request (answering 200 false)
                        "https://www.airbnb.com/s/Paris" 0 None
                        (example_world 3 two_proxies)))).
Proof.
  apply (identity_drawn_from_lists (answering 200 false)
           "https://www.airbnb.com/s/Paris" 0 None
           (example_world 3 two_proxies)).
  - discriminate.
  - discriminate.
  - reflexivity.
Defined.

Lemma request_sent_made_for (env : attempt_env) (url : string)
    (params : option dict) (c : config) :
  made_for url params (HTTP_TIMEOUT c) (Get (request_sent env url params c)).
Proof.
  unfold made_for, request_sent, chosen_headers. simpl.
  repeat split.
  destruct (USER_AGENT_LIST c); eexists; reflexivity.
Qed.

(** One attempt adds its effects in front of those already there, and each
    of them is made for the URL and parameters of the call. *)
Lemma attempt_adds_effects (env : attempt_env) (url : string) (attempt_id : Z)
    (params : option dict) (w : world) :
  exists new,
    effects (snd (ws_individual_request env url attempt_id params w))
    = (new ++ effects w)%list /\
    Forall (made_for url params (HTTP_TIMEOUT (cfg w))) new.
Proof.
  pose proof (request_sent_made_for env url params (cfg w)) as Hget.
  assert (Hentry :
            Forall (made_for url params (HTTP_TIMEOUT (cfg w)))
              [Attempt attempt_id])
    by (apply Forall_cons; [exact I | apply Forall_nil]).
  assert (Hshort :
            Forall (made_for url params (HTTP_TIMEOUT (cfg w)))
              [Get (request_sent env url params (cfg w));
               Sleep (first_sleep env (cfg w)); Attempt attempt_id]).
  { apply Forall_cons; [exact Hget|].
    apply Forall_cons; [exact I | exact Hentry]. }
  assert (Hlong :
            Forall (made_for url params (HTTP_TIMEOUT (cfg w)))
              [Sleep (RE_INIT_SLEEP_TIME (cfg w));
               Get (request_sent env url params (cfg w));
               Sleep (first_sleep env (cfg w)); Attempt attempt_id]).
  { apply Forall_cons; [exact I | exact Hshort]. }
  rewrite attempt_world.
  destruct (sleep_error _);
    [eexists; split; [|exact Hentry]; reflexivity|].
  destruct (network env _) as [r|e];
    [|eexists; split; [|exact Hshort]; reflexivity].
  destruct (status_code r <? 300);
    [eexists; split; [|exact Hshort]; reflexivity|].
  destruct (after_blocked_effects env
              (world_at_request env url attempt_id params w)) as [H|H];
    rewrite H.
  - eexists; split; [|exact Hshort]; reflexivity.
  - eexists; split; [|exact Hlong]; reflexivity.
Qed.

Lemma after_attempts_adds_effects (url : string) (params : option dict)
    (script : list (attempt_env * Z)) :
  forall w : world,
  exists new,
    effects (after_attempts script url params w) = (new ++ effects w)%list /\
    Forall (made_for url params (HTTP_TIMEOUT (cfg w))) new.
Proof.
  induction script as [|[env attempt_id] script IH]; intros w; simpl.
  - exists []. split; [reflexivity | constructor].
  - destruct (attempt_adds_effects env url attempt_id params w)
      as (new1 & Heff1 & Hfor1).
    destruct (IH (snd (ws_individual_request env url attempt_id params w)))
      as (new2 & Heff2 & Hfor2).
    destruct (attempt_settings env url attempt_id params w)
      as (_ & Htimeout & _).
    rewrite Htimeout in Hfor2.
    exists (new2 ++ new1)%list. split.
    + rewrite Heff2, Heff1, app_assoc. reflexivity.
    + apply Forall_app. split; assumption.
Qed.

(** X12: a call of [ws_request_with_repeats] only adds to the effects
    already there, and every request it sends is for the URL and the
    parameters it was given, with the time limit [HTTP_TIMEOUT] the session
    started with, the cookie [sticky_locale=en] and one [User-Agent]
    header. *)
Theorem every_request_is_for_the_url (env : Z -> attempt_env) (url : string)
    (params : option dict) (w : world) :
  exists new,
    effects (snd (ws_request_with_repeats env url params w))
    = (new ++ effects w)%list /\
    Forall (made_for url params (HTTP_TIMEOUT (cfg w))) new.
Proof.
  unfold ws_request_with_repeats, bind, read_config.
  destruct (loop_is_a_run env url params
              (range (MAX_CONNECTION_ATTEMPTS (cfg w))) w) as [script Hrun].
  rewrite Hrun. apply after_attempts_adds_effects.
Qed.
